(** * EmiMeter: the emissions calculation engine of [streamlit_app.py]

    A shallow embedding of the two pure functions of the dashboard,
    [calculate_category_emissions] and [get_full_emission_dataframe],
    together with the totals the script computes from them.

    Python dictionaries are finite maps with string keys; a failing
    subscript [d[k]] raises [KeyError], which the embedding keeps as an
    explicit error result.  The arithmetic is written once, against a small
    interface of the numeric operations the source uses, and run on two
    carriers: exact rationals, on which the general properties are proved,
    and IEEE binary64 numbers, on which the sample scenario is evaluated
    the way the interpreter evaluates it.

    The rest of the script follows: the filter of the pie chart, the
    session state with its initialization and its three callbacks, whose
    lists live in a heap so that sharing shows, and the calculations the
    script runs on the session. *)

From Stdlib Require Import ZArith QArith Qfield Lqa String List.
From Stdlib Require Import Uint63 PrimFloat Floats.
From stdpp Require Import gmap strings.
From stdpp Require Import pretty.

Local Open Scope string_scope.

(** ** Numbers *)

(** The operations of Python numbers the calculator uses: conversion of an
    integer literal or integer input, [+], [-], [*] and true division [/].
    Every divisor in the source is one of the literals [100] and [1000], so
    [ZeroDivisionError] cannot occur and [div] is total here. *)
Class PyNum (T : Type) : Type := {
  of_int : Z -> T;
  add : T -> T -> T;
  sub : T -> T -> T;
  mul : T -> T -> T;
  div : T -> T -> T
}.

(** A decimal literal such as [0.18], given as the fraction [18/100]. On
    binary64 the quotient of two small integers is correctly rounded, so
    this is the number the Python literal denotes. *)
Definition lit `{PyNum T} (n d : Z) : T := div (of_int n) (of_int d).

(** Exact arithmetic. *)
#[export] Instance Q_PyNum : PyNum Q := {
  of_int := inject_Z;
  add := Qplus;
  sub := Qminus;
  mul := Qmult;
  div := Qdiv
}.

(** Binary64 arithmetic; [float_of_Z] is exact below [2^53] in absolute
    value and rounds to nearest below [2^63]. The integers of the script
    (its literals, the default figures) are far below; from [2^63] on the
    conversion is not that of Python and is not used. *)
Definition float_of_Z (z : Z) : float :=
  match z with
  | Z0 => PrimFloat.zero
  | Zpos _ => PrimFloat.of_uint63 (Uint63.of_Z z)
  | Zneg p => PrimFloat.opp (PrimFloat.of_uint63 (Uint63.of_Z (Zpos p)))
  end.

#[export] Instance float_PyNum : PyNum float := {
  of_int := float_of_Z;
  add := PrimFloat.add;
  sub := PrimFloat.sub;
  mul := PrimFloat.mul;
  div := PrimFloat.div
}.

(** ** Values, errors and results *)

(** The Python values that occur in the dictionaries and in the data
    frame: numbers, lists of numbers (the subcontractor figures) and
    strings (the initial [''] of a displayed input value). A number is
    held by its value in the carrier: a float, or an integer that converts
    to one, as the figures of the script do. An integer beyond the range
    of binary64, on which [int * float] raises [OverflowError], has no such
    value and is not among the entries considered here. *)
Inductive pyval (T : Type) : Type :=
  | VNum (x : T)
  | VList (xs : list T)
  | VStr (s : string).
Arguments VNum {T} x.
Arguments VList {T} xs.
Arguments VStr {T} s.

Inductive pyerror : Type :=
  | KeyError (key : string)
  | TypeError.

Inductive result (A : Type) : Type :=
  | Ok (a : A)
  | Raise (e : pyerror).
Arguments Ok {A} a.
Arguments Raise {A} e.

(** Sequencing: the first exception raised ends the evaluation. *)
#[export] Instance result_bind : MBind result := fun A B k r =>
  match r with
  | Ok a => k a
  | Raise e => Raise e
  end.

(** [d[key]] *)
Definition subscript {V : Type} (d : gmap string V) (key : string) : result V :=
  match d !! key with
  | Some v => Ok v
  | None => Raise (KeyError key)
  end.

(** [adjustments if adjustments is not None else {}] *)
Definition or_empty {V : Type} (adjustments : option (gmap string V))
  : gmap string V :=
  match adjustments with
  | Some d => d
  | None => ∅
  end.

(** [d.get(key, default)] *)
Definition get {V : Type} (d : gmap string V) (key : string) (default : V) : V :=
  match d !! key with
  | Some v => v
  | None => default
  end.

Section Engine.
Context {T : Type} `{PyNum T}.

(** [v * f] for a dictionary entry [v] and a factor [f]: only a number
    can be multiplied by a float. The product of two numbers of the
    carrier raises nothing (in binary64 it may be infinite). *)
Definition times (v : pyval T) (f : T) : result T :=
  match v with
  | VNum a => Ok (mul a f)
  | VList _ | VStr _ => Raise TypeError
  end.

(** The built-in [sum] of a dictionary entry: accumulation from [0],
    left to right, over a list of numbers. A number cannot be iterated
    over, and a character cannot be added to [0]; the empty string has
    nothing to add. *)
Definition pysum (v : pyval T) : result T :=
  match v with
  | VList xs => Ok (fold_left add xs (of_int 0))
  | VStr EmptyString => Ok (of_int 0)
  | VNum _ | VStr (String _ _) => Raise TypeError
  end.

(** ** Emission factors (kg/unit) *)
Definition FACTORS : gmap string T :=
  <["Cars" := lit 18 100]>
  (<["Trucks" := lit 90 100]>
  (<["Buses" := lit 110 100]>
  (<["Forklifts" := lit 4 1]>
  (<["Planes" := lit 9000 1]>
  (<["Lighting" := lit 42 100]>
  (<["Heating" := lit 20 100]>
  (<["Cooling" := lit 42 100]>
  (<["Computing" := lit 42 100]> ∅)))))))).

Definition DEFAULT_ACTIVITY_DATA : gmap string (pyval T) :=
  <["Cars_km" := VNum (of_int 250000)]>
  (<["Trucks_km" := VNum (of_int 150000)]>
  (<["Buses_km" := VNum (of_int 80000)]>
  (<["Forklifts_hr" := VNum (of_int 2000)]>
  (<["Planes_hr" := VNum (of_int 400)]>
  (<["Lighting_kWh" := VNum (of_int 120000)]>
  (<["Heating_kWhth" := VNum (of_int 50000)]>
  (<["Cooling_kWh" := VNum (of_int 300000)]>
  (<["Computing_kWh" := VNum (of_int 90000)]>
  (<["Subcontractors_tCO2e" :=
       VList [of_int 120; of_int 45; of_int 20]]> ∅))))))))).

(** ** Core calculation logic *)

Definition calculate_category_emissions
    (category : string) (activity_data : gmap string (pyval T))
    (adjustments : option (gmap string T)) : result T :=
  let adjustments := or_empty adjustments in
  let A := activity_data in
  let F := FACTORS in
  if String.eqb category "Cars" then
    let EV := get adjustments "EV_Share" (of_int 0) in
    let KMRed := get adjustments "KM_Reduction" (of_int 0) in
    a ← subscript A "Cars_km"; f ← subscript F "Cars";
    base ← times a f;
    let emissions_kg :=
      mul (mul base
               (sub (of_int 1)
                    (div (mul (lit 7 10) EV) (of_int 100))))
          (sub (of_int 1) (div KMRed (of_int 100))) in
    Ok (div emissions_kg (of_int 1000))
  else if String.eqb category "Trucks" then
    a ← subscript A "Trucks_km"; f ← subscript F "Trucks";
    kg ← times a f;
    Ok (div kg (of_int 1000))
  else if String.eqb category "Buses" then
    a ← subscript A "Buses_km"; f ← subscript F "Buses";
    kg ← times a f;
    Ok (div kg (of_int 1000))
  else if String.eqb category "Forklifts" then
    a ← subscript A "Forklifts_hr"; f ← subscript F "Forklifts";
    kg ← times a f;
    Ok (div kg (of_int 1000))
  else if String.eqb category "Cargo Planes" then
    let LoadFactor := get adjustments "Load_Factor" (of_int 100) in
    a ← subscript A "Planes_hr"; f ← subscript F "Planes";
    base ← times a f;
    let emissions_kg := mul base (div LoadFactor (of_int 100)) in
    Ok (div emissions_kg (of_int 1000))
  else if String.eqb category "Office Lighting" then
    a ← subscript A "Lighting_kWh"; f ← subscript F "Lighting";
    kg ← times a f;
    Ok (div kg (of_int 1000))
  else if String.eqb category "Heating" then
    a ← subscript A "Heating_kWhth"; f ← subscript F "Heating";
    kg ← times a f;
    Ok (div kg (of_int 1000))
  else if String.eqb category "Cooling (A/C)" then
    a ← subscript A "Cooling_kWh"; f ← subscript F "Cooling";
    kg ← times a f;
    Ok (div kg (of_int 1000))
  else if String.eqb category "Computing (IT)" then
    a ← subscript A "Computing_kWh"; f ← subscript F "Computing";
    kg ← times a f;
    Ok (div kg (of_int 1000))
  else if String.eqb category "Subcontractors" then
    v ← subscript A "Subcontractors_tCO2e";
    pysum v
  else Ok (of_int 0).

(** ** The report *)

Definition categories : list string :=
  ["Cars"; "Trucks"; "Buses"; "Forklifts"; "Cargo Planes";
   "Office Lighting"; "Heating"; "Cooling (A/C)"; "Computing (IT)";
   "Subcontractors"].

(** One row of the data frame. *)
Record row : Type := {
  Category : string;
  Activity_Data : pyval T;
  Emissions : T
}.

(** The input value shown next to a category; [''] unless the category
    is one of the ten. *)
Definition input_value
    (cat : string) (activity_data : gmap string (pyval T))
  : result (pyval T) :=
  if String.eqb cat "Cars" then subscript activity_data "Cars_km"
  else if String.eqb cat "Trucks" then subscript activity_data "Trucks_km"
  else if String.eqb cat "Buses" then subscript activity_data "Buses_km"
  else if String.eqb cat "Forklifts" then
    subscript activity_data "Forklifts_hr"
  else if String.eqb cat "Cargo Planes" then
    subscript activity_data "Planes_hr"
  else if String.eqb cat "Office Lighting" then
    subscript activity_data "Lighting_kWh"
  else if String.eqb cat "Heating" then
    subscript activity_data "Heating_kWhth"
  else if String.eqb cat "Cooling (A/C)" then
    subscript activity_data "Cooling_kWh"
  else if String.eqb cat "Computing (IT)" then
    subscript activity_data "Computing_kWh"
  else if String.eqb cat "Subcontractors" then
    v ← subscript activity_data "Subcontractors_tCO2e";
    total ← pysum v;
    Ok (VNum total)
  else Ok (VStr "").

(** The [for] loop: its body on the first category, then the rest. *)
Fixpoint build_rows
    (cats : list string) (activity_data : gmap string (pyval T))
    (adjustments : option (gmap string T)) : result (list row) :=
  match cats with
  | [] => Ok []
  | cat :: rest =>
      emissions ←
        calculate_category_emissions cat activity_data adjustments;
      input ← input_value cat activity_data;
      results ← build_rows rest activity_data adjustments;
      Ok ({| Category := cat; Activity_Data := input;
             Emissions := emissions |} :: results)
  end.

Definition get_full_emission_dataframe
    (activity_data : gmap string (pyval T))
    (adjustments : option (gmap string T)) : result (list row) :=
  build_rows categories activity_data adjustments.

(** [df['Emissions (tCO2e)'].sum()], accumulated from [0] down the
    column. The library is free to add in another order, which is
    immaterial over the rationals. *)
Definition emissions_column (df : list row) : list T := map Emissions df.

Definition column_sum (df : list row) : T :=
  fold_left add (emissions_column df) (of_int 0).

(** ** The script: activity data and the two scenarios *)

(** The values the input widgets hold. *)
Record activity : Type := {
  Cars_km : T;
  Trucks_km : T;
  Buses_km : T;
  Forklifts_hr : T;
  Planes_hr : T;
  Lighting_kWh : T;
  Heating_kWhth : T;
  Cooling_kWh : T;
  Computing_kWh : T;
  Subcontractors_tCO2e : list T
}.

(** [current_activity_data]: the dictionary assembled from them. *)
Definition current_activity_data (a : activity) : gmap string (pyval T) :=
  <["Cars_km" := VNum (Cars_km a)]>
  (<["Trucks_km" := VNum (Trucks_km a)]>
  (<["Buses_km" := VNum (Buses_km a)]>
  (<["Forklifts_hr" := VNum (Forklifts_hr a)]>
  (<["Planes_hr" := VNum (Planes_hr a)]>
  (<["Lighting_kWh" := VNum (Lighting_kWh a)]>
  (<["Heating_kWhth" := VNum (Heating_kWhth a)]>
  (<["Cooling_kWh" := VNum (Cooling_kWh a)]>
  (<["Computing_kWh" := VNum (Computing_kWh a)]>
  (<["Subcontractors_tCO2e" :=
       VList (Subcontractors_tCO2e a)]> ∅))))))))).

Definition baseline_adjustments : gmap string T :=
  <["EV_Share" := of_int 0]>
  (<["KM_Reduction" := of_int 0]>
  (<["Load_Factor" := of_int 100]> ∅)).

(** The dictionary built from the three sliders. *)
Definition optimized_adjustments (ev km lf : T) : gmap string T :=
  <["EV_Share" := ev]>
  (<["KM_Reduction" := km]>
  (<["Load_Factor" := lf]> ∅)).

(** [total_baseline_co2] and [total_optimized_co2]: the column sum of
    the data frame built for the given adjustments. *)
Definition total_co2
    (activity_data : gmap string (pyval T))
    (adjustments : option (gmap string T)) : result T :=
  df ← get_full_emission_dataframe activity_data adjustments;
  Ok (column_sum df).

End Engine.

Arguments row T : clear implicits.
Arguments activity T : clear implicits.

(** ** The category enumeration *)

(** The ten categories, and the label under which the source dispatches
    on each of them. *)
Inductive EmissionCategory : Type :=
  | Cars | Trucks | Buses | Forklifts | CargoPlanes
  | OfficeLighting | Heating | Cooling | Computing | Subcontractors.

Definition all_categories : list EmissionCategory :=
  [Cars; Trucks; Buses; Forklifts; CargoPlanes;
   OfficeLighting; Heating; Cooling; Computing; Subcontractors].

Definition category_name (c : EmissionCategory) : string :=
  match c with
  | Cars => "Cars"
  | Trucks => "Trucks"
  | Buses => "Buses"
  | Forklifts => "Forklifts"
  | CargoPlanes => "Cargo Planes"
  | OfficeLighting => "Office Lighting"
  | Heating => "Heating"
  | Cooling => "Cooling (A/C)"
  | Computing => "Computing (IT)"
  | Subcontractors => "Subcontractors"
  end.

(** ** Statements over exact rationals *)

(** [returns r q]: the evaluation ended normally, with a value equal to
    the rational [q]. *)
Definition returns (r : result Q) (q : Q) : Prop :=
  match r with
  | Ok v => v == q
  | Raise _ => False
  end.

(** The input of a category: its activity field, and for Subcontractors
    the sum of the sequence (what the report shows as Activity Data). *)
Definition activity_input (c : EmissionCategory) (a : activity Q) : Q :=
  match c with
  | Cars => Cars_km a
  | Trucks => Trucks_km a
  | Buses => Buses_km a
  | Forklifts => Forklifts_hr a
  | CargoPlanes => Planes_hr a
  | OfficeLighting => Lighting_kWh a
  | Heating => Heating_kWhth a
  | Cooling => Cooling_kWh a
  | Computing => Computing_kWh a
  | Subcontractors => fold_left Qplus (Subcontractors_tCO2e a) 0%Q
  end.

(** The percentages a call works with, supplied or defaulted, lie in
    [[0, 100]]. *)
Definition percentages_in_range (adjustments : option (gmap string Q)) : Prop :=
  let d := or_empty adjustments in
  (0 <= get d "EV_Share" 0 <= 100)%Q /\
  (0 <= get d "KM_Reduction" 0 <= 100)%Q /\
  (0 <= get d "Load_Factor" 100 <= 100)%Q.

(** The sum of a list of rationals, from the right. *)
Definition Qsum (xs : list Q) : Q := fold_right Qplus 0%Q xs.

(** [raises r]: the evaluation ended with an exception. *)
Definition raises {A : Type} (r : result A) : Prop :=
  match r with
  | Ok _ => False
  | Raise _ => True
  end.

(** The default activity data as a record of rationals. *)
Definition default_activity : activity Q :=
  {| Cars_km := 250000; Trucks_km := 150000; Buses_km := 80000;
     Forklifts_hr := 2000; Planes_hr := 400; Lighting_kWh := 120000;
     Heating_kWhth := 50000; Cooling_kWh := 300000;
     Computing_kWh := 90000;
     Subcontractors_tCO2e := [120; 45; 20] |}%Q.

(** * The rest of the script *)

(** ** What a call reads *)

(** The key of the activity dictionary the branch of a category
    subscripts. *)
Definition activity_key (c : EmissionCategory) : string :=
  match c with
  | Cars => "Cars_km"
  | Trucks => "Trucks_km"
  | Buses => "Buses_km"
  | Forklifts => "Forklifts_hr"
  | CargoPlanes => "Planes_hr"
  | OfficeLighting => "Lighting_kWh"
  | Heating => "Heating_kWhth"
  | Cooling => "Cooling_kWh"
  | Computing => "Computing_kWh"
  | Subcontractors => "Subcontractors_tCO2e"
  end.

(** The keys of the adjustments the branch of a category reads with
    [get]. *)
Definition adjustment_keys (c : EmissionCategory) : list string :=
  match c with
  | Cars => ["EV_Share"; "KM_Reduction"]
  | CargoPlanes => ["Load_Factor"]
  | _ => []
  end.

(** The kind of entry the branch of a category can work with: a number
    where it multiplies by a factor, and where it calls [sum] a list of
    numbers or the empty string. *)
Definition accepts {T : Type} (c : EmissionCategory) (v : pyval T) : bool :=
  match c, v with
  | Subcontractors, VList _ => true
  | Subcontractors, VStr EmptyString => true
  | Subcontractors, _ => false
  | _, VNum _ => true
  | _, _ => false
  end.

(** ** The pie chart *)

(** The comparison [>] of Python numbers. *)
Class PyOrd (T : Type) : Type := {
  py_gt : T -> T -> bool
}.

#[export] Instance Q_PyOrd : PyOrd Q := {
  py_gt x y := negb (Qle_bool x y)
}.

#[export] Instance float_PyOrd : PyOrd float := {
  py_gt x y := PrimFloat.ltb y x
}.

(** What the pie section puts on the page: the chart of the rows it is
    given, or a notice. *)
Inductive pie_output (T : Type) : Type :=
  | PieChart (df_pie : list (row T))
  | Info (message : string).
Arguments PieChart {T} df_pie.
Arguments Info {T} message.

Section Pie.
Context {T : Type} `{PyNum T} `{PyOrd T}.

(** [df_optimized[df_optimized['Emissions (tCO2e)'] > 0.001]] *)
Definition df_pie (df_optimized : list (row T)) : list (row T) :=
  List.filter (fun r => py_gt (Emissions r) (lit 1 1000)) df_optimized.

(** The chart when [df_pie] is not empty, the notice otherwise. *)
Definition pie_section (df_optimized : list (row T)) : pie_output T :=
  match df_pie df_optimized with
  | [] => Info "No activity data entered to generate the pie chart."
  | rows => PieChart rows
  end.

End Pie.

(** ** Session state *)

(** Lists are mutable and can be reached from several places: they live
    in cells of a heap, and the dictionaries hold their locations. *)
Definition loc : Type := nat.

(** The exceptions of the callbacks and of the script: those of the
    calculator, and two more. *)
Inductive exception : Type :=
  | Py (e : pyerror)
  | IndexError
  | AttributeError (name : string).

Inductive outcome (A : Type) : Type :=
  | Done (a : A)
  | Thrown (e : exception).
Arguments Done {A} a.
Arguments Thrown {A} e.

#[export] Instance outcome_bind : MBind outcome := fun A B k r =>
  match r with
  | Done a => k a
  | Thrown e => Thrown e
  end.

(** A result of the calculator inside the script. *)
Definition lift {A : Type} (r : result A) : outcome A :=
  match r with
  | Ok a => Done a
  | Raise e => Thrown (Py e)
  end.

(** An entry of an activity dictionary of the session: a number, or the
    list of subcontractor figures by its location. *)
Inductive entry (T : Type) : Type :=
  | ENum (x : T)
  | EList (l : loc).
Arguments ENum {T} x.
Arguments EList {T} l.

(** [st.session_state]: the dictionary under ['activity_data'], when
    there is one, and the numbers under every other key (the sliders, the
    number inputs). *)
Record session_state (T : Type) : Type := {
  st_activity_data : option (gmap string (entry T));
  st_numbers : gmap string T
}.
Arguments st_activity_data {T} s.
Arguments st_numbers {T} s.

(** The lists and the session. A run of the script holds one more
    reference, its [DEFAULT_ACTIVITY_DATA], whose dictionary never
    changes but whose list is a cell like any other. *)
Record world (T : Type) : Type := {
  heap : gmap loc (list T);
  session : session_state T
}.
Arguments heap {T} w.
Arguments session {T} w.

(** The four numbers the script keeps from a run: the two data frames
    and their totals. *)
Record calculations (T : Type) : Type := {
  df_baseline : list (row T);
  total_baseline_co2 : T;
  df_optimized : list (row T);
  total_optimized_co2 : T
}.
Arguments df_baseline {T} c.
Arguments total_baseline_co2 {T} c.
Arguments df_optimized {T} c.
Arguments total_optimized_co2 {T} c.

Section Session.
Context {T : Type} `{PyNum T}.

(** The cell of the list of [DEFAULT_ACTIVITY_DATA]. The assignment of
    lines 26-38 is executed each time the script is, and each time builds
    a new dictionary with a new list; the functions a run defines see the
    dictionary of that run. The state initialization and the callbacks
    below are those of one run, whichever it is: the cell of its list is
    a parameter. *)
Variable DEFAULT_Subcontractors : loc.

(** Lines 26-38 when the script is executed: a new list [[120, 45, 20]],
    in a cell no list is in. The result is that cell, with the heap that
    now holds it; the session is not touched. *)
Definition define_DEFAULT_ACTIVITY_DATA (w : world T) : loc * world T :=
  let l := fresh (dom (heap w)) in
  (l, {| heap := <[l := [of_int 120; of_int 45; of_int 20]]> (heap w);
         session := session w |}).

(** [DEFAULT_ACTIVITY_DATA] as an object: the dictionary, with its list
    by location. *)
Definition DEFAULT_ACTIVITY_DATA_object : gmap string (entry T) :=
  <["Cars_km" := ENum (of_int 250000)]>
  (<["Trucks_km" := ENum (of_int 150000)]>
  (<["Buses_km" := ENum (of_int 80000)]>
  (<["Forklifts_hr" := ENum (of_int 2000)]>
  (<["Planes_hr" := ENum (of_int 400)]>
  (<["Lighting_kWh" := ENum (of_int 120000)]>
  (<["Heating_kWhth" := ENum (of_int 50000)]>
  (<["Cooling_kWh" := ENum (of_int 300000)]>
  (<["Computing_kWh" := ENum (of_int 90000)]>
  (<["Subcontractors_tCO2e" := EList DEFAULT_Subcontractors]> ∅))))))))).

(** The heap once the script has defined [DEFAULT_ACTIVITY_DATA] for the
    first time. *)
Definition initial_heap : gmap loc (list T) :=
  {[ DEFAULT_Subcontractors := [of_int 120; of_int 45; of_int 20] ]}.

(** The list in a cell. *)
Definition cell (h : gmap loc (list T)) (l : loc) : list T :=
  default [] (h !! l).

(** An entry as the calculator is given it: a list by its elements. *)
Definition read (h : gmap loc (list T)) (e : entry T) : pyval T :=
  match e with
  | ENum x => VNum x
  | EList l => VList (cell h l)
  end.

(** [st.session_state[key]] for a key that holds a number. *)
Definition number_at (s : session_state T) (key : string) : outcome T :=
  match st_numbers s !! key with
  | Some x => Done x
  | None => Thrown (Py (KeyError key))
  end.

(** [st.session_state.name] for a key that holds a number. *)
Definition attribute (s : session_state T) (name : string) : outcome T :=
  match st_numbers s !! name with
  | Some x => Done x
  | None => Thrown (AttributeError name)
  end.

(** [st.session_state['activity_data']] *)
Definition activity_data_of (s : session_state T)
  : outcome (gmap string (entry T)) :=
  match st_activity_data s with
  | Some d => Done d
  | None => Thrown (Py (KeyError "activity_data"))
  end.

(** [d[key]] for an activity dictionary of the session. *)
Definition entry_at (d : gmap string (entry T)) (key : string)
  : outcome (entry T) :=
  match d !! key with
  | Some e => Done e
  | None => Thrown (Py (KeyError key))
  end.

(** [if key not in st.session_state: st.session_state[key] = v], for a
    number. *)
Definition set_if_missing (key : string) (v : T) (numbers : gmap string T)
  : gmap string T :=
  match numbers !! key with
  | Some _ => numbers
  | None => <[key := v]> numbers
  end.

(** State initialization. The copy of [DEFAULT_ACTIVITY_DATA] is shallow:
    the new dictionary holds the same list. *)
Definition state_initialization (w : world T) : outcome (world T) :=
  let s := session w in
  let activity :=
    match st_activity_data s with
    | Some d => d
    | None => DEFAULT_ACTIVITY_DATA_object
    end in
  let numbers :=
    set_if_missing "adj_load_factor" (of_int 80)
      (set_if_missing "adj_km_red" (of_int 10)
         (set_if_missing "adj_ev_share" (of_int 30) (st_numbers s))) in
  numbers ←
    match numbers !! "Cars_km" with
    | Some _ => Done numbers
    | None =>
        e ← entry_at DEFAULT_ACTIVITY_DATA_object "Cars_km";
        match e with
        | ENum x => Done (<["Cars_km" := x]> numbers)
        | EList _ => Thrown (Py TypeError)
        end
    end;
  Done {| heap := heap w;
          session := {| st_activity_data := Some activity;
                        st_numbers := numbers |} |}.

Definition load_sample_data (w : world T) : world T :=
  let s := session w in
  {| heap := heap w;
     session :=
       {| st_activity_data := Some DEFAULT_ACTIVITY_DATA_object;
          st_numbers :=
            <["adj_load_factor" := of_int 80]>
            (<["adj_km_red" := of_int 10]>
            (<["adj_ev_share" := of_int 30]> (st_numbers s))) |} |}.

(** The dictionary comprehension gives every key of
    [DEFAULT_ACTIVITY_DATA] but ['Subcontractors_tCO2e'] the value [0];
    the list [[0, 0, 0]] is a new object, in a cell no list is in. *)
Definition reset_data (w : world T) : world T :=
  let s := session w in
  let zeros : gmap string (entry T) :=
    (fun _ => ENum (of_int 0)) <$>
    filter (fun kv => kv.1 <> "Subcontractors_tCO2e")
           DEFAULT_ACTIVITY_DATA_object in
  let l := fresh (dom (heap w)) in
  {| heap := <[l := [of_int 0; of_int 0; of_int 0]]> (heap w);
     session :=
       {| st_activity_data :=
            Some (<["Subcontractors_tCO2e" := EList l]> zeros);
          st_numbers :=
            <["adj_load_factor" := of_int 100]>
            (<["adj_km_red" := of_int 0]>
            (<["adj_ev_share" := of_int 0]> (st_numbers s))) |} |}.

(** [f"Sub{index+1}_key"] *)
Definition sub_key (index : Z) : string :=
  "Sub" +:+ pretty (index + 1)%Z +:+ "_key".

(** The position an index designates in a list of length [n]: negative
    indices count from the end; out of range is an [IndexError]. *)
Definition position (index : Z) (n : nat) : option nat :=
  let i := if (index <? 0)%Z then (index + Z.of_nat n)%Z else index in
  if ((0 <=? i) && (i <? Z.of_nat n))%Z then Some (Z.to_nat i) else None.

(** The right-hand side is evaluated first, then the list is reached,
    then the item is assigned. A number in the place of the list does not
    support item assignment. *)
Definition update_sub_data (index : Z) (w : world T) : outcome (world T) :=
  let s := session w in
  v ← number_at s (sub_key index);
  d ← activity_data_of s;
  e ← entry_at d "Subcontractors_tCO2e";
  match e with
  | ENum _ => Thrown (Py TypeError)
  | EList l =>
      let xs := cell (heap w) l in
      match position index (length xs) with
      | Some i => Done {| heap := <[l := <[i := v]> xs]> (heap w);
                          session := s |}
      | None => Thrown IndexError
      end
  end.

(** [current_activity_data], from the number inputs and the list of the
    session. *)
Definition script_activity_data (w : world T)
  : outcome (gmap string (pyval T)) :=
  let s := session w in
  cars ← attribute s "Cars_km";
  trucks ← attribute s "Trucks_km";
  buses ← attribute s "Buses_km";
  forklifts ← attribute s "Forklifts_hr";
  planes ← attribute s "Planes_hr";
  lighting ← attribute s "Lighting_kWh";
  heating ← attribute s "Heating_kWhth";
  cooling ← attribute s "Cooling_kWh";
  computing ← attribute s "Computing_kWh";
  d ← activity_data_of s;
  subcontractors ← entry_at d "Subcontractors_tCO2e";
  Done (<["Cars_km" := VNum cars]>
        (<["Trucks_km" := VNum trucks]>
        (<["Buses_km" := VNum buses]>
        (<["Forklifts_hr" := VNum forklifts]>
        (<["Planes_hr" := VNum planes]>
        (<["Lighting_kWh" := VNum lighting]>
        (<["Heating_kWhth" := VNum heating]>
        (<["Cooling_kWh" := VNum cooling]>
        (<["Computing_kWh" := VNum computing]>
        (<["Subcontractors_tCO2e" :=
             read (heap w) subcontractors]> ∅)))))))))).

(** The calculations of the script: the baseline report and its total,
    then the report and the total for the sliders. *)
Definition run_calculations (w : world T) : outcome (calculations T) :=
  let s := session w in
  A ← script_activity_data w;
  baseline ← lift (get_full_emission_dataframe A (Some baseline_adjustments));
  ev ← number_at s "adj_ev_share";
  km ← number_at s "adj_km_red";
  lf ← number_at s "adj_load_factor";
  optimized ←
    lift (get_full_emission_dataframe A
            (Some (optimized_adjustments ev km lf)));
  Done {| df_baseline := baseline;
          total_baseline_co2 := column_sum baseline;
          df_optimized := optimized;
          total_optimized_co2 := column_sum optimized |}.

(** The session as the script finds it the first time, with nothing in
    it yet. *)
Definition first_run : world T :=
  {| heap := initial_heap;
     session := {| st_activity_data := None; st_numbers := ∅ |} |}.

(** There are three subcontractor figures: in the list of
    [DEFAULT_ACTIVITY_DATA], and in the list of the activity data of the
    session when the session has activity data. *)
Definition three_subcontractors (w : world T) : Prop :=
  length (cell (heap w) DEFAULT_Subcontractors) = 3%nat /\
  forall d, st_activity_data (session w) = Some d ->
    exists l, d !! "Subcontractors_tCO2e" = Some (EList l) /\
              length (cell (heap w) l) = 3%nat.

(** The subcontractor figures the script passes to the calculator. *)
Definition subcontractors_of (w : world T) : outcome (pyval T) :=
  d ← activity_data_of (session w);
  e ← entry_at d "Subcontractors_tCO2e";
  Done (read (heap w) e).

End Session.

(** ** Two sites *)

(** The activity of two sites taken together: the figures add up and the
    subcontractor sequences follow one another. *)
Definition combine_sites (a b : activity Q) : activity Q :=
  {| Cars_km := Cars_km a + Cars_km b;
     Trucks_km := Trucks_km a + Trucks_km b;
     Buses_km := Buses_km a + Buses_km b;
     Forklifts_hr := Forklifts_hr a + Forklifts_hr b;
     Planes_hr := Planes_hr a + Planes_hr b;
     Lighting_kWh := Lighting_kWh a + Lighting_kWh b;
     Heating_kWhth := Heating_kWhth a + Heating_kWhth b;
     Cooling_kWh := Cooling_kWh a + Cooling_kWh b;
     Computing_kWh := Computing_kWh a + Computing_kWh b;
     Subcontractors_tCO2e :=
       (Subcontractors_tCO2e a ++ Subcontractors_tCO2e b)%list |}%Q.

(** A session for examples: the list of [DEFAULT_ACTIVITY_DATA] in cell
    0, the sample activity data loaded, the nine number inputs at the
    sample figures, the three subcontractor inputs at 99, 45 and 20, and
    the sliders at 30, 10 and 80. *)
Definition sample_session : world Q :=
  {| heap := initial_heap 0%nat;
     session :=
       {| st_activity_data := Some (DEFAULT_ACTIVITY_DATA_object 0%nat);
          st_numbers :=
            <["Cars_km" := 250000%Q]>
            (<["Trucks_km" := 150000]>
            (<["Buses_km" := 80000]>
            (<["Forklifts_hr" := 2000]>
            (<["Planes_hr" := 400]>
            (<["Lighting_kWh" := 120000]>
            (<["Heating_kWhth" := 50000]>
            (<["Cooling_kWh" := 300000]>
            (<["Computing_kWh" := 90000]>
            (<["Sub1_key" := 99]>
            (<["Sub2_key" := 45]>
            (<["Sub3_key" := 20]>
            (<["adj_ev_share" := 30]>
            (<["adj_km_red" := 10]>
            (<["adj_load_factor" := 80]> ∅))))))))))))))%Q |} |}.

(** * Properties *)

Set Warnings "-inexact-float".

(** ** Dictionaries *)

Section Dictionaries.
Context {V : Type}.
Implicit Types (d m : gmap string V) (k : string) (v : V).

Lemma get_empty k v : get (∅ : gmap string V) k v = v.
Proof. unfold get. now rewrite lookup_empty. Qed.

Lemma get_insert_eq d k v default : get (<[k := v]> d) k default = v.
Proof. unfold get. now rewrite lookup_insert_eq. Qed.

Lemma get_insert_ne d k k' v default :
  k <> k' -> get (<[k := v]> d) k' default = get d k' default.
Proof. intros Hne. unfold get. now rewrite lookup_insert_ne. Qed.

Lemma get_delete_eq d k default : get (delete k d) k default = default.
Proof. unfold get. now rewrite lookup_delete_eq. Qed.

(** A dictionary that holds part of [m] reads like [m] wherever [m] holds
    the default. *)
Lemma get_submap d m k default :
  d ⊆ m -> m !! k = Some default -> get d k default = default.
Proof.
  intros Hsub Hm. unfold get.
  destruct (d !! k) as [v|] eqn:Hd; [|reflexivity].
  pose proof (lookup_weaken _ _ _ _ Hd Hsub) as Hv. congruence.
Qed.

End Dictionaries.

(** ** The calculator on any carrier *)

(** What follows holds for every implementation of the numeric
    operations, the exact one and the rounding one alike. *)
Section AnyCarrier.
Context {T : Type} `{PyNum T}.
Implicit Types (a : activity T) (c : EmissionCategory).
Implicit Types (activity_data : gmap string (pyval T)).

(** The list the report iterates over is the enumeration, label by
    label. *)
Lemma categories_enumeration : categories = map category_name all_categories.
Proof. reflexivity. Qed.

(** On a record the calculator never raises: every key it reads is there
    and holds a value of the right kind. *)
Lemma calculator_total c a (adj : option (gmap string T)) :
  exists e,
    calculate_category_emissions (category_name c) (current_activity_data a)
      adj = Ok e.
Proof. destruct c; eexists; reflexivity. Qed.

(** The Cars and the Cargo Planes branches on a record, operation by
    operation. *)
Lemma cars_on_record a (adj : option (gmap string T)) :
  calculate_category_emissions "Cars" (current_activity_data a) adj =
  let EV := get (or_empty adj) "EV_Share" (of_int 0) in
  let KMRed := get (or_empty adj) "KM_Reduction" (of_int 0) in
  Ok (div (mul (mul (mul (Cars_km a) (lit 18 100))
                    (sub (of_int 1) (div (mul (lit 7 10) EV) (of_int 100))))
               (sub (of_int 1) (div KMRed (of_int 100))))
          (of_int 1000)).
Proof. reflexivity. Qed.

Lemma planes_on_record a (adj : option (gmap string T)) :
  calculate_category_emissions "Cargo Planes" (current_activity_data a) adj =
  let LoadFactor := get (or_empty adj) "Load_Factor" (of_int 100) in
  Ok (div (mul (mul (Planes_hr a) (lit 9000 1))
               (div LoadFactor (of_int 100)))
          (of_int 1000)).
Proof. reflexivity. Qed.

(** C10. Whatever two adjustments are passed, omitted ones included, the
    calculator gives the same result for Trucks, Buses, Forklifts, Office
    Lighting, Heating, Cooling, Computing and Subcontractors, on every
    activity dictionary: only the Cars and the Cargo Planes results can
    depend on the adjustments. *)
Theorem adjustments_only_affect_cars_and_planes
    c activity_data (adj1 adj2 : option (gmap string T)) :
  c <> Cars -> c <> CargoPlanes ->
  calculate_category_emissions (category_name c) activity_data adj1 =
  calculate_category_emissions (category_name c) activity_data adj2.
Proof.
  intros Hcars Hplanes. destruct c; try contradiction; reflexivity.
Qed.

(** The three percentages the calculator reads, with their defaults, in
    a dictionary that holds only neutral values. *)
Lemma missing_is_neutral (adj : gmap string T) :
  adj ⊆ baseline_adjustments ->
  get adj "EV_Share" (of_int 0) = of_int 0 /\
  get adj "KM_Reduction" (of_int 0) = of_int 0 /\
  get adj "Load_Factor" (of_int 100) = of_int 100.
Proof.
  intros Hsub. repeat split; eapply get_submap; eauto; reflexivity.
Qed.

(** Such a dictionary is as good as the neutral adjustments of the script,
    for every category name and every activity dictionary. *)
Lemma calculate_neutral_submap
    (category : string) activity_data (adj : gmap string T) :
  adj ⊆ baseline_adjustments ->
  calculate_category_emissions category activity_data (Some adj) =
  calculate_category_emissions category activity_data
    (Some baseline_adjustments).
Proof.
  intros Hsub. destruct (missing_is_neutral adj Hsub) as (Hev & Hkm & Hlf).
  unfold calculate_category_emissions, or_empty.
  rewrite Hev, Hkm, Hlf. reflexivity.
Qed.

Lemma calculate_omitted (category : string) activity_data :
  calculate_category_emissions category activity_data None =
  calculate_category_emissions category activity_data
    (Some baseline_adjustments).
Proof.
  apply (calculate_neutral_submap category activity_data ∅).
  apply map_empty_subseteq.
Qed.

(** Two adjustments under which every call of the calculator agrees give
    the same rows, hence the same total. *)
Lemma build_rows_ext
    (cats : list string) activity_data (adj1 adj2 : option (gmap string T)) :
  (forall category,
      calculate_category_emissions category activity_data adj1 =
      calculate_category_emissions category activity_data adj2) ->
  build_rows cats activity_data adj1 = build_rows cats activity_data adj2.
Proof.
  intros Hcalc. induction cats as [|cat rest IH]; simpl.
  - reflexivity.
  - rewrite Hcalc, IH. reflexivity.
Qed.

Lemma total_co2_ext activity_data (adj1 adj2 : option (gmap string T)) :
  (forall category,
      calculate_category_emissions category activity_data adj1 =
      calculate_category_emissions category activity_data adj2) ->
  total_co2 activity_data adj1 = total_co2 activity_data adj2.
Proof.
  intros Hcalc. unfold total_co2, get_full_emission_dataframe.
  now rewrite (build_rows_ext _ _ adj1 adj2 Hcalc).
Qed.

(** C8. On a record, for each of the ten categories, the calculator
    returns normally with the neutral adjustments, and returns the same
    when the adjustments are omitted or hold only some of the three
    fields, at their neutral values; the totals of the reports built that
    way, the optimized one at neutral sliders included, are the total of
    the baseline report, which is built without an exception. *)
Theorem omitted_adjustments_are_neutral c a (adj : gmap string T) :
  adj ⊆ baseline_adjustments ->
  let A := current_activity_data a in
  let neutral :=
    calculate_category_emissions (category_name c) A
      (Some baseline_adjustments) in
  let baseline_total := total_co2 A (Some baseline_adjustments) in
  (exists e, neutral = Ok e) /\
  calculate_category_emissions (category_name c) A None = neutral /\
  calculate_category_emissions (category_name c) A (Some adj) = neutral /\
  (exists t, baseline_total = Ok t) /\
  total_co2 A None = baseline_total /\
  total_co2 A (Some adj) = baseline_total /\
  total_co2 A
    (Some (optimized_adjustments (of_int 0) (of_int 0) (of_int 100)))
    = baseline_total.
Proof.
  intros Hsub A neutral baseline_total.
  split; [apply calculator_total|].
  split; [apply calculate_omitted|].
  split; [now apply calculate_neutral_submap|].
  split; [eexists; reflexivity|].
  split; [apply total_co2_ext; intros; apply calculate_omitted|].
  split; [apply total_co2_ext; intros; now apply calculate_neutral_submap|].
  reflexivity.
Qed.

(** C4, as the code has it. A category name that is none of the ten makes
    the calculator return zero, on every activity dictionary and whatever
    the adjustments: the final [return 0.0] of the source. No exception is
    raised. *)
Theorem unknown_category_returns_zero
    (category : string) activity_data (adj : option (gmap string T)) :
  category ∉ categories ->
  calculate_category_emissions category activity_data adj = Ok (of_int 0).
Proof.
  intros Hc. unfold categories in Hc.
  repeat (apply not_elem_of_cons in Hc as [? Hc]).
  unfold calculate_category_emissions.
  repeat (rewrite (proj2 (String.eqb_neq _ _)) by assumption).
  reflexivity.
Qed.

(** The total is the sum down the emissions column of the data frame. *)
Lemma total_co2_column_sum
    activity_data (adj : option (gmap string T)) (df : list (row T)) :
  get_full_emission_dataframe activity_data adj = Ok df ->
  total_co2 activity_data adj = Ok (column_sum df).
Proof. intros Hdf. unfold total_co2. now rewrite Hdf. Qed.

End AnyCarrier.

Local Open Scope Q_scope.

Lemma adjustments_only_affect_cars_and_planes_witness :
  Trucks <> Cars /\ Trucks <> CargoPlanes /\
  calculate_category_emissions (T:=Q) "Trucks" DEFAULT_ACTIVITY_DATA
    (Some (optimized_adjustments 30 10 80)) =
  calculate_category_emissions (T:=Q) "Trucks" DEFAULT_ACTIVITY_DATA None.
Proof.
  split; [discriminate|]. split; [discriminate|].
  apply (adjustments_only_affect_cars_and_planes (T:=Q) Trucks); discriminate.
Defined.

Lemma omitted_adjustments_are_neutral_witness :
  let adj : gmap string Q := <["Load_Factor" := 100]> ∅ in
  adj ⊆ baseline_adjustments /\
  calculate_category_emissions "Cargo Planes"
    (current_activity_data default_activity) (Some adj) =
  calculate_category_emissions "Cargo Planes"
    (current_activity_data default_activity) (Some baseline_adjustments).
Proof.
  assert (Hsub :
    (<["Load_Factor" := 100]> ∅ : gmap string Q) ⊆ baseline_adjustments).
  { apply insert_subseteq_l; [reflexivity | apply map_empty_subseteq]. }
  split; [exact Hsub|].
  apply (omitted_adjustments_are_neutral (T:=Q) CargoPlanes _ _ Hsub).
Defined.

Lemma Trains_not_a_category : "Trains" ∉ categories.
Proof.
  unfold categories. intros Hin.
  repeat (apply elem_of_cons in Hin as [Heq|Hin]; [discriminate Heq|]).
  now apply elem_of_nil in Hin.
Qed.

Lemma unknown_category_returns_zero_witness :
  ("Trains" ∉ categories) /\
  calculate_category_emissions (T:=Q) "Trains" DEFAULT_ACTIVITY_DATA
    (Some baseline_adjustments) = Ok 0.
Proof.
  split; [exact Trains_not_a_category|].
  exact (unknown_category_returns_zero (T:=Q) "Trains" DEFAULT_ACTIVITY_DATA
           (Some baseline_adjustments) Trains_not_a_category).
Defined.

(** C4, as the claim has it, fails: for the name ["Trains"], outside the
    ten, the call on the default activity data does not raise. It returns
    zero, in exact arithmetic and in binary64. *)
Lemma unknown_category_does_not_raise :
  ("Trains" ∉ categories) /\
  ~ raises (calculate_category_emissions (T:=Q) "Trains"
              DEFAULT_ACTIVITY_DATA (Some baseline_adjustments)) /\
  ~ raises (calculate_category_emissions (T:=float) "Trains"
              DEFAULT_ACTIVITY_DATA (Some baseline_adjustments)) /\
  calculate_category_emissions (T:=float) "Trains" DEFAULT_ACTIVITY_DATA
    (Some baseline_adjustments) = Ok 0%float.
Proof.
  split; [exact Trains_not_a_category|].
  repeat split; vm_compute; auto.
Qed.

(** ** Exact arithmetic *)

Lemma returns_Ok (r : result Q) (v q : Q) :
  r = Ok v -> v == q -> returns r q.
Proof. intros -> Hv. exact Hv. Qed.

(** Resolve the reads of a dictionary built by insertions and deletions
    at literal keys. *)
Ltac resolve_get :=
  repeat first
    [ rewrite get_insert_eq
    | rewrite get_insert_ne by discriminate
    | rewrite get_delete_eq
    | rewrite get_empty ].

(** Unfold the numeric operations to those of the rationals. *)
Ltac to_rationals := cbv [lit div mul sub add of_int Q_PyNum].

(** Linear arithmetic with divisions by literals: each [x / c] becomes
    the product of [x] and the inverse of [c], computed. *)
Ltac linear_with_division :=
  unfold Qdiv;
  repeat match goal with
         | |- context [/ (Qmake ?n ?d)] =>
             let r := eval compute in (/ (Qmake n d)) in
             change (/ (Qmake n d)) with r
         end;
  lra.

(** *** Cars *)

(** C2. With EV share [ev] and distance reduction [km] supplied, the Cars
    emissions of a record are
    [cars_km * 0.18 * (1 - 0.7 * ev/100) * (1 - km/100) / 1000] tons,
    whatever else the adjustments hold. *)
Theorem cars_formula (a : activity Q) (adj : gmap string Q) (ev km : Q) :
  returns
    (calculate_category_emissions "Cars" (current_activity_data a)
       (Some (<["EV_Share" := ev]> (<["KM_Reduction" := km]> adj))))
    (Cars_km a * 0.18 * (1 - 0.7 * ev / 100) * (1 - km / 100) / 1000).
Proof.
  rewrite cars_on_record. unfold returns, or_empty.
  resolve_get. to_rationals. field.
Qed.

(** In binary64 a product that is a finite number, multiplied by the
    factor [0.0] and divided by [1000], is zero ([0.0] or [-0.0], which
    [==] does not tell apart). *)
Lemma binary64_zero_factor (y : float) :
  PrimFloat.is_nan y = false -> PrimFloat.is_infinity y = false ->
  PrimFloat.eqb (y * 0 / 1000)%float 0%float = true.
Proof.
  intros Hnan Hinf.
  unfold PrimFloat.is_nan in Hnan. rewrite FloatAxioms.eqb_spec in Hnan.
  unfold PrimFloat.is_infinity in Hinf.
  rewrite FloatAxioms.eqb_spec, FloatAxioms.abs_spec in Hinf.
  rewrite FloatAxioms.eqb_spec, FloatAxioms.div_spec, FloatAxioms.mul_spec.
  destruct (Prim2SF y) as [s|s| |s m e].
  - destruct s; vm_compute; reflexivity.
  - vm_compute in Hinf. discriminate Hinf.
  - discriminate Hnan.
  - destruct s; vm_compute; reflexivity.
Qed.

(** C7, corrected. In exact arithmetic, at full EV share without distance
    reduction the Cars emissions are 30% of the unadjusted value
    [cars_km * 0.18 / 1000], which is what the neutral adjustments give,
    and at full distance reduction without EV share they are zero. In the
    binary64 arithmetic of the interpreter the factor [1 - 0.7 * 100 / 100]
    is [0.30000000000000004]: at full EV share the code returns
    [cars_km * 0.18 * 0.30000000000000004 * 1.0 / 1000], each operation
    rounded, which is 30% of the unadjusted value up to rounding and not
    exactly. At full distance reduction the factor [1 - 100 / 100] is
    exactly [0.0], and the result compares equal to zero whenever
    [cars_km * 0.18] is a finite number. *)
Theorem cars_adjustment_bounds
    (a : activity Q) (adj : gmap string Q)
    (a64 : activity float) (adj64 : gmap string float) :
  let cars := calculate_category_emissions "Cars" (current_activity_data a) in
  let unadjusted := Cars_km a * 0.18 / 1000 in
  let cars64 :=
    calculate_category_emissions "Cars" (current_activity_data a64) in
  let full_ev_share : gmap string float :=
    <["EV_Share" := 100%float]> (<["KM_Reduction" := 0%float]> adj64) in
  let full_km_reduction : gmap string float :=
    <["KM_Reduction" := 100%float]> (<["EV_Share" := 0%float]> adj64) in
  (returns (cars (Some baseline_adjustments)) unadjusted /\
   returns (cars (Some (<["EV_Share" := 100]> (<["KM_Reduction" := 0]> adj))))
           (0.3 * unadjusted) /\
   returns (cars (Some (<["KM_Reduction" := 100]> (<["EV_Share" := 0]> adj))))
           0) /\
  (cars64 (Some baseline_adjustments)
     = Ok (Cars_km a64 * 0.18 * 1 * 1 / 1000)%float /\
   cars64 (Some full_ev_share)
     = Ok (Cars_km a64 * 0.18 * 0.30000000000000004 * 1 / 1000)%float /\
   cars64 (Some full_km_reduction)
     = Ok (Cars_km a64 * 0.18 * 1 * 0 / 1000)%float /\
   (PrimFloat.is_nan (Cars_km a64 * 0.18 * 1)%float = false ->
    PrimFloat.is_infinity (Cars_km a64 * 0.18 * 1)%float = false ->
    exists e, cars64 (Some full_km_reduction) = Ok e /\
              PrimFloat.eqb e 0%float = true)).
Proof.
  intros cars unadjusted cars64 full_ev_share full_km_reduction.
  subst cars unadjusted cars64 full_ev_share full_km_reduction.
  rewrite !cars_on_record. unfold or_empty, baseline_adjustments.
  resolve_get. split.
  - unfold returns. to_rationals. repeat split; field.
  - split; [reflexivity|]. split; [reflexivity|]. split; [reflexivity|].
    intros Hnan Hinf. eexists. split; [reflexivity|].
    exact (binary64_zero_factor _ Hnan Hinf).
Qed.

(** The finite case at work: on the default figures the product
    [250000 * 0.18] is [45000], and at full distance reduction the code
    returns zero. *)
Lemma cars_adjustment_bounds_witness :
  let a64 : activity float :=
    {| Cars_km := 250000; Trucks_km := 150000; Buses_km := 80000;
       Forklifts_hr := 2000; Planes_hr := 400; Lighting_kWh := 120000;
       Heating_kWhth := 50000; Cooling_kWh := 300000;
       Computing_kWh := 90000; Subcontractors_tCO2e := [120; 45; 20] |}%float in
  PrimFloat.is_nan (Cars_km a64 * 0.18 * 1)%float = false /\
  PrimFloat.is_infinity (Cars_km a64 * 0.18 * 1)%float = false /\
  exists e,
    calculate_category_emissions "Cars" (current_activity_data a64)
      (Some (<["KM_Reduction" := 100%float]> (<["EV_Share" := 0%float]> ∅)))
    = Ok e /\
    PrimFloat.eqb e 0%float = true.
Proof.
  intros a64.
  split; [reflexivity|]. split; [reflexivity|].
  apply (cars_adjustment_bounds default_activity ∅ a64 ∅); reflexivity.
Defined.

(** *** Cargo planes *)

(** C3. The Cargo Planes emissions of a record are
    [plane_hours * 9000 * (load_factor/100) / 1000] tons, with a load
    factor of 100 when the adjustments hold none or are omitted. So a load
    factor of 100 gives the unadjusted value [plane_hours * 9000 / 1000],
    a load factor of 0 gives zero, and in between the emissions are the
    fraction [load_factor/100] of the unadjusted value. *)
Theorem cargo_planes_formula (a : activity Q) (adj : gmap string Q) (lf : Q) :
  let planes :=
    calculate_category_emissions "Cargo Planes" (current_activity_data a) in
  let unadjusted := Planes_hr a * 9000 / 1000 in
  returns (planes (Some (<["Load_Factor" := lf]> adj)))
          (Planes_hr a * 9000 * (lf / 100) / 1000) /\
  returns (planes (Some (delete "Load_Factor" adj)))
          (Planes_hr a * 9000 * (100 / 100) / 1000) /\
  returns (planes None) (Planes_hr a * 9000 * (100 / 100) / 1000) /\
  returns (planes (Some (<["Load_Factor" := 100]> adj))) unadjusted /\
  returns (planes (Some (<["Load_Factor" := 0]> adj))) 0 /\
  returns (planes (Some (<["Load_Factor" := lf]> adj)))
          (lf / 100 * unadjusted).
Proof.
  intros planes unadjusted. subst planes unadjusted.
  rewrite !planes_on_record. unfold returns, or_empty.
  resolve_get. to_rationals.
  repeat split; field.
Qed.

(** *** Zero activity *)

(** Accumulating from [acc] adds [acc] to the sum of the list. *)
Lemma fold_left_Qplus (xs : list Q) (acc : Q) :
  fold_left Qplus xs acc == acc + Qsum xs.
Proof.
  revert acc. induction xs as [|x xs IH]; intros acc; simpl.
  - ring.
  - rewrite IH. ring.
Qed.

(** C9. Whatever the adjustments, a category whose input is zero has zero
    emissions: a zero distance, duration or energy for the nine categories
    with a factor, a sequence that sums to zero (the empty one included)
    for Subcontractors. *)
Theorem zero_activity_zero_emissions
    (c : EmissionCategory) (a : activity Q) (adj : option (gmap string Q)) :
  activity_input c a == 0 ->
  returns
    (calculate_category_emissions (category_name c) (current_activity_data a)
       adj)
    0.
Proof.
  intros Hzero.
  destruct c; simpl in Hzero;
    (eapply returns_Ok; [reflexivity | to_rationals]);
    rewrite Hzero; field.
Qed.

Lemma zero_activity_zero_emissions_witness :
  let a := {| Cars_km := 7; Trucks_km := 0; Buses_km := 0;
              Forklifts_hr := 0; Planes_hr := 0; Lighting_kWh := 0;
              Heating_kWhth := 0; Cooling_kWh := 0; Computing_kWh := 0;
              Subcontractors_tCO2e := [] |} in
  activity_input Subcontractors a == 0 /\
  returns
    (calculate_category_emissions "Subcontractors" (current_activity_data a)
       (Some (optimized_adjustments 30 10 80)))
    0.
Proof.
  split; [reflexivity|].
  apply (zero_activity_zero_emissions Subcontractors). reflexivity.
Defined.

(** *** Monotonicity *)

(** Scaling by a number that is not negative keeps the order. *)
Lemma scale_le (x y s : Q) : 0 <= s -> x <= y -> x * s <= y * s.
Proof. intros Hs Hxy. now apply Qmult_le_compat_r. Qed.

(** The three factors the adjustments contribute are not negative for
    percentages in range. *)
Lemma km_factor_nonneg (km : Q) : 0 <= km <= 100 -> 0 <= 1 - km / 100.
Proof. intros Hkm. linear_with_division. Qed.

Lemma ev_factor_nonneg (ev : Q) : 0 <= ev <= 100 -> 0 <= 1 - 0.7 * ev / 100.
Proof. intros Hev. linear_with_division. Qed.

Lemma lf_factor_nonneg (lf : Q) : 0 <= lf <= 100 -> 0 <= lf / 100.
Proof. intros Hlf. linear_with_division. Qed.

(** A sequence of subcontractor figures raised entry by entry has a sum
    at least as large. *)
Lemma subcontractors_pointwise (xs ys : list Q) (acc acc' : Q) :
  Forall2 Qle xs ys -> acc <= acc' ->
  fold_left Qplus xs acc <= fold_left Qplus ys acc'.
Proof.
  intros Hall. revert acc acc'.
  induction Hall as [|x y xs ys Hxy _ IH]; intros acc acc' Hacc; simpl.
  - exact Hacc.
  - apply IH. now apply Qplus_le_compat.
Qed.

(** C5. With the percentages in [[0, 100]], a category's emissions do not
    decrease when its input does not: of two records, the one with the
    larger activity field for the category (the larger sum for
    Subcontractors) has emissions at least as large, and both calls return
    normally. Nothing is asked of the other fields, so records that differ
    only in that field are covered. *)
Theorem emissions_monotone
    (c : EmissionCategory) (a a' : activity Q)
    (adj : option (gmap string Q)) :
  percentages_in_range adj ->
  activity_input c a <= activity_input c a' ->
  exists e e',
    calculate_category_emissions (category_name c) (current_activity_data a)
      adj = Ok e /\
    calculate_category_emissions (category_name c) (current_activity_data a')
      adj = Ok e' /\
    e <= e'.
Proof.
  intros (Hev & Hkm & Hlf) Hle.
  destruct c; simpl in Hle;
    do 2 eexists; (split; [reflexivity | split; [reflexivity|] ]);
    to_rationals;
    repeat (apply scale_le; [ try (compute; discriminate) | ]);
    try exact Hle.
  - now apply km_factor_nonneg.
  - now apply ev_factor_nonneg.
  - now apply lf_factor_nonneg.
Qed.

Lemma emissions_monotone_witness :
  let a' :=
    {| Cars_km := 260000; Trucks_km := 150000; Buses_km := 80000;
       Forklifts_hr := 2000; Planes_hr := 400; Lighting_kWh := 120000;
       Heating_kWhth := 50000; Cooling_kWh := 300000;
       Computing_kWh := 90000; Subcontractors_tCO2e := [120; 45; 20] |} in
  let adj := Some (optimized_adjustments 30 10 80) in
  percentages_in_range adj /\
  activity_input Cars default_activity <= activity_input Cars a' /\
  exists e e',
    calculate_category_emissions "Cars"
      (current_activity_data default_activity) adj = Ok e /\
    calculate_category_emissions "Cars" (current_activity_data a') adj
      = Ok e' /\
    e <= e'.
Proof.
  assert (Hrange : percentages_in_range (Some (optimized_adjustments 30 10 80)))
    by (repeat split; vm_compute; discriminate).
  split; [exact Hrange|].
  split; [vm_compute; discriminate|].
  apply (emissions_monotone Cars); [exact Hrange | vm_compute; discriminate].
Defined.

(** *** The report *)

(** C6. The report of a record is built without an exception; it has the
    ten categories in order, each row with the emissions the calculator
    returns for its category, and the total is the sum of the emissions of
    these ten rows. *)
Theorem total_is_sum_of_rows
    (a : activity Q) (adj : option (gmap string Q)) :
  exists df,
    get_full_emission_dataframe (current_activity_data a) adj = Ok df /\
    length df = 10%nat /\
    map Category df = categories /\
    Forall (fun r =>
              calculate_category_emissions (Category r)
                (current_activity_data a) adj = Ok (Emissions r)) df /\
    returns (total_co2 (current_activity_data a) adj)
            (Qsum (map Emissions df)).
Proof.
  eexists. split; [reflexivity|].
  split; [reflexivity|]. split; [reflexivity|]. split.
  - repeat constructor.
  - eapply returns_Ok; [reflexivity|].
    unfold column_sum, emissions_column. to_rationals.
    rewrite fold_left_Qplus. change (inject_Z 0) with 0. ring.
Qed.

(** The input of a category is what the report shows as its Activity
    Data. *)
Lemma input_value_activity_input (c : EmissionCategory) (a : activity Q) :
  input_value (category_name c) (current_activity_data a) =
  Ok (VNum (activity_input c a)).
Proof. destruct c; reflexivity. Qed.

(** ** The sample scenario *)

(** C1. On the default activity data with the neutral adjustments the
    calculator returns 45, 135, 88, 8, 3600, 50.4, 10, 126, 37.8 and 185
    tons for the ten categories, and the total of the report is 4285.2
    tons: as rationals in exact arithmetic, and as the binary64 numbers
    these decimals denote when every operation rounds and the column is
    added from the top. *)
Theorem sample_scenario_baseline :
  let run (c : string) :=
    calculate_category_emissions c DEFAULT_ACTIVITY_DATA
      (Some baseline_adjustments) in
  let run64 (c : string) :=
    calculate_category_emissions (T:=float) c DEFAULT_ACTIVITY_DATA
      (Some baseline_adjustments) in
  (returns (run "Cars") 45 /\
   returns (run "Trucks") 135 /\
   returns (run "Buses") 88 /\
   returns (run "Forklifts") 8 /\
   returns (run "Cargo Planes") 3600 /\
   returns (run "Office Lighting") 50.4 /\
   returns (run "Heating") 10 /\
   returns (run "Cooling (A/C)") 126 /\
   returns (run "Computing (IT)") 37.8 /\
   returns (run "Subcontractors") 185 /\
   returns (total_co2 DEFAULT_ACTIVITY_DATA (Some baseline_adjustments))
           4285.2) /\
  (run64 "Cars" = Ok 45%float /\
   run64 "Trucks" = Ok 135%float /\
   run64 "Buses" = Ok 88%float /\
   run64 "Forklifts" = Ok 8%float /\
   run64 "Cargo Planes" = Ok 3600%float /\
   run64 "Office Lighting" = Ok 50.4%float /\
   run64 "Heating" = Ok 10%float /\
   run64 "Cooling (A/C)" = Ok 126%float /\
   run64 "Computing (IT)" = Ok 37.8%float /\
   run64 "Subcontractors" = Ok 185%float /\
   total_co2 (T:=float) DEFAULT_ACTIVITY_DATA (Some baseline_adjustments)
     = Ok 4285.2%float).
Proof.
  split.
  - repeat split; vm_compute; reflexivity.
  - repeat split; vm_compute; reflexivity.
Qed.

(** The record of the default figures is the default dictionary. *)
Lemma default_activity_data :
  current_activity_data default_activity = DEFAULT_ACTIVITY_DATA.
Proof. reflexivity. Qed.

(** The sliders of the script at their initial values, 30, 10 and 80, on
    the default activity data: only the Cars and the Cargo Planes rows
    move. *)
Remark optimized_scenario :
  let adj := Some (optimized_adjustments 30 10 80) in
  let adj64 : option (gmap string float) :=
    Some (optimized_adjustments 30 10 80)%float in
  returns (calculate_category_emissions "Cars" DEFAULT_ACTIVITY_DATA adj)
          31.995 /\
  returns (calculate_category_emissions "Cargo Planes"
             DEFAULT_ACTIVITY_DATA adj) 2880 /\
  returns (total_co2 DEFAULT_ACTIVITY_DATA adj) 3552.195 /\
  calculate_category_emissions "Cars" DEFAULT_ACTIVITY_DATA adj64
    = Ok 31.995%float /\
  calculate_category_emissions "Cargo Planes" DEFAULT_ACTIVITY_DATA adj64
    = Ok 2880%float.
Proof. repeat split; vm_compute; reflexivity. Qed.

(** ** Binary64 *)

(** The fractions standing for the decimal literals of the source are the
    binary64 numbers these literals denote. *)
Remark binary64_literals :
  lit 18 100 = 0.18%float /\ lit 90 100 = 0.90%float /\
  lit 110 100 = 1.10%float /\ lit 4 1 = 4.0%float /\
  lit 9000 1 = 9000.0%float /\ lit 42 100 = 0.42%float /\
  lit 20 100 = 0.20%float /\ lit 7 10 = 0.7%float.
Proof. repeat split; vm_compute; reflexivity. Qed.

(** On the sample scenario the binary64 total is the same when the first
    eight emissions are combined pairwise and the last two added after
    them, instead of adding down the column. *)
Remark sample_total_pairwise :
  let e1 := 45%float in let e2 := 135%float in let e3 := 88%float in
  let e4 := 8%float in let e5 := 3600%float in let e6 := 50.4%float in
  let e7 := 10%float in let e8 := 126%float in let e9 := 37.8%float in
  let e10 := 185%float in
  (((e1 + e2) + (e3 + e4)) + ((e5 + e6) + (e7 + e8)) + e9 + e10)%float
  = 4285.2%float.
Proof. vm_compute. reflexivity. Qed.

(** C7, as the claim has it, fails in the arithmetic of the code.
    On the default activity data the unadjusted Cars emissions are [45.0]
    and 30% of them are [13.5], but with an EV share of 100 and no
    distance reduction the code returns [13.500000000000002], the next
    binary64 number above: the two do not compare equal. (At full
    distance reduction the code returns [0.0] there.) *)
Lemma full_ev_share_is_not_30_percent :
  let cars :=
    calculate_category_emissions (T:=float) "Cars" DEFAULT_ACTIVITY_DATA in
  let unadjusted := (250000 * 0.18 / 1000)%float in
  cars (Some baseline_adjustments) = Ok unadjusted /\
  unadjusted = 45%float /\
  cars (Some (optimized_adjustments 100 0 100)%float)
    = Ok 13.500000000000002%float /\
  (0.3 * unadjusted)%float = 13.5%float /\
  PrimFloat.eqb 13.500000000000002 (0.3 * unadjusted) = false /\
  PrimFloat.next_up 13.5 = 13.500000000000002%float /\
  cars (Some (optimized_adjustments 0 100 100)%float) = Ok 0%float.
Proof. repeat split; vm_compute; reflexivity. Qed.

(** * Further properties *)

(** ** What a call reads, and when it returns *)

Section Reads.
Context {T : Type} `{PyNum T}.
Implicit Types (c : EmissionCategory) (A : gmap string (pyval T)).
Implicit Types (adj : option (gmap string T)).

(** A call sees the activity dictionary only through the entry under
    the key of its category. *)
Lemma calculator_by_entry c A A' adj :
  A !! activity_key c = A' !! activity_key c ->
  calculate_category_emissions (category_name c) A adj =
  calculate_category_emissions (category_name c) A' adj.
Proof.
  intros Heq.
  destruct c; simpl in Heq;
    unfold calculate_category_emissions, subscript; simpl;
    rewrite Heq; reflexivity.
Qed.

(** X1. A category's result does not change when any other key of the
    activity dictionary is set, overwritten or removed: the call never
    reads a key that is not its own. *)
Theorem other_keys_do_not_matter c A adj (k : string) (v : pyval T) :
  k <> activity_key c ->
  calculate_category_emissions (category_name c) (<[k := v]> A) adj =
  calculate_category_emissions (category_name c) A adj /\
  calculate_category_emissions (category_name c) (delete k A) adj =
  calculate_category_emissions (category_name c) A adj.
Proof.
  intros Hk. split; apply calculator_by_entry.
  - now rewrite lookup_insert_ne.
  - now rewrite lookup_delete_ne.
Qed.

(** The call on a dictionary that holds only the entry [v] under the key
    of the category. *)
Lemma calculator_singleton c A adj (v : pyval T) :
  A !! activity_key c = Some v ->
  calculate_category_emissions (category_name c) A adj =
  calculate_category_emissions (category_name c)
    (<[activity_key c := v]> ∅) adj.
Proof.
  intros Hv. apply calculator_by_entry.
  now rewrite lookup_insert_eq.
Qed.

(** A missing key is a [KeyError] for that key. *)
Lemma calculator_missing_key c A adj :
  A !! activity_key c = None ->
  calculate_category_emissions (category_name c) A adj
  = Raise (KeyError (activity_key c)).
Proof.
  intros Hv.
  rewrite (calculator_by_entry c A ∅ adj) by (now rewrite Hv, lookup_empty).
  destruct c; reflexivity.
Qed.

(** An entry of the wrong kind is a [TypeError]. *)
Lemma calculator_wrong_kind c A adj (v : pyval T) :
  A !! activity_key c = Some v -> accepts c v = false ->
  calculate_category_emissions (category_name c) A adj = Raise TypeError.
Proof.
  intros Hv Hkind. rewrite (calculator_singleton c A adj v Hv).
  destruct c, v as [x|xs|[|ch s]]; try discriminate Hkind; reflexivity.
Qed.

(** An entry of the right kind makes the call return, when it is a
    number of the carrier or a list of them. *)
Lemma calculator_right_kind c A adj (v : pyval T) :
  A !! activity_key c = Some v -> accepts c v = true ->
  exists e, calculate_category_emissions (category_name c) A adj = Ok e.
Proof.
  intros Hv Hkind. rewrite (calculator_singleton c A adj v Hv).
  destruct c, v as [x|xs|[|ch s]]; try discriminate Hkind;
    eexists; reflexivity.
Qed.

(** A call that returns found its key, with an entry it accepts. *)
Lemma calculator_Ok_inv c A adj (e : T) :
  calculate_category_emissions (category_name c) A adj = Ok e ->
  exists v, A !! activity_key c = Some v /\ accepts c v = true.
Proof.
  intros Hok.
  destruct (A !! activity_key c) as [v|] eqn:Hv.
  - exists v. split; [reflexivity|].
    destruct (accepts c v) eqn:Hkind; [reflexivity|].
    rewrite (calculator_wrong_kind c A adj v Hv Hkind) in Hok. discriminate.
  - rewrite (calculator_missing_key c A adj Hv) in Hok. discriminate.
Qed.

(** X2. When a call raises, whatever the adjustments: [KeyError] exactly
    when the activity dictionary lacks the key of the category, and then
    for that key and no other; [TypeError] exactly when the entry under
    the key is of the wrong kind (a list or a string where a number is
    multiplied, a number or a non-empty string where [sum] is called). A
    call that returns has found its key with an entry of the right
    kind. *)
Theorem calculator_outcome c A adj :
  let call := calculate_category_emissions (category_name c) A adj in
  (forall k, call = Raise (KeyError k) <->
             k = activity_key c /\ A !! activity_key c = None) /\
  (call = Raise TypeError <->
   exists v, A !! activity_key c = Some v /\ accepts c v = false) /\
  (forall e, call = Ok e ->
             exists v, A !! activity_key c = Some v /\ accepts c v = true).
Proof.
  intros call. subst call.
  split; [|split].
  - intros k. split.
    + intros Hraise.
      destruct (A !! activity_key c) as [v|] eqn:Hv.
      * destruct (accepts c v) eqn:Hkind.
        -- destruct (calculator_right_kind c A adj v Hv Hkind) as [e He].
           rewrite He in Hraise. discriminate Hraise.
        -- rewrite (calculator_wrong_kind c A adj v Hv Hkind) in Hraise.
           discriminate Hraise.
      * rewrite (calculator_missing_key c A adj Hv) in Hraise.
        injection Hraise as <-. now split.
    + intros [-> Hv]. now apply calculator_missing_key.
  - split.
    + intros Hraise.
      destruct (A !! activity_key c) as [v|] eqn:Hv.
      * exists v. split; [reflexivity|].
        destruct (accepts c v) eqn:Hkind; [|reflexivity].
        destruct (calculator_right_kind c A adj v Hv Hkind) as [e He].
        rewrite He in Hraise. discriminate Hraise.
      * rewrite (calculator_missing_key c A adj Hv) in Hraise.
        discriminate Hraise.
    + intros (v & Hv & Hkind). now apply (calculator_wrong_kind c A adj v).
  - intros e. apply calculator_Ok_inv.
Qed.

(** X3. A call reads the adjustments only under the keys of its
    category: two adjustments that agree on [EV_Share] and [KM_Reduction]
    give the same Cars result, two that agree on [Load_Factor] the same
    Cargo Planes result, whatever other keys they hold. *)
Theorem calculator_reads_its_adjustments c A adj adj' :
  Forall (fun k => or_empty adj !! k = or_empty adj' !! k)
         (adjustment_keys c) ->
  calculate_category_emissions (category_name c) A adj =
  calculate_category_emissions (category_name c) A adj'.
Proof.
  intros Hkeys.
  destruct c; try reflexivity; simpl in Hkeys.
  - apply Forall_cons in Hkeys as [Hev Hkeys].
    apply Forall_cons in Hkeys as [Hkm _].
    unfold calculate_category_emissions, get; simpl.
    rewrite Hev, Hkm. reflexivity.
  - apply Forall_cons in Hkeys as [Hlf _].
    unfold calculate_category_emissions, get; simpl.
    rewrite Hlf. reflexivity.
Qed.

(** *** The report on any dictionary *)

(** The displayed input of a category is there whenever its call
    returns. *)
Lemma input_value_of_accepted c A (v : pyval T) :
  A !! activity_key c = Some v -> accepts c v = true ->
  exists i, input_value (category_name c) A = Ok i.
Proof.
  intros Hv Hkind.
  destruct c; simpl in Hv;
    unfold input_value, subscript; simpl; rewrite Hv;
    try (eexists; reflexivity).
  destruct v as [x|xs|[|ch s]]; try discriminate Hkind; eexists; reflexivity.
Qed.

(** The rows built for a list of names follow the list. *)
Lemma build_rows_Ok_inv (cats : list string) A adj (df : list (row T)) :
  build_rows cats A adj = Ok df ->
  map Category df = cats /\
  Forall (fun r =>
            calculate_category_emissions (Category r) A adj
              = Ok (Emissions r) /\
            input_value (Category r) A = Ok (Activity_Data r)) df.
Proof.
  revert df. induction cats as [|cat rest IH]; intros df Hdf; simpl in Hdf.
  - injection Hdf as <-. split; [reflexivity | constructor].
  - destruct (calculate_category_emissions cat A adj) as [e|] eqn:He;
      [|discriminate Hdf].
    destruct (input_value cat A) as [i|] eqn:Hi; [|discriminate Hdf].
    destruct (build_rows rest A adj) as [rows|] eqn:Hrows;
      [|discriminate Hdf].
    simpl in Hdf. injection Hdf as <-.
    destruct (IH rows eq_refl) as [Hcats Hall].
    split; [simpl; now rewrite Hcats|].
    constructor; [simpl; now split | exact Hall].
Qed.

(** Rows are built when every call and every displayed input is there. *)
Lemma build_rows_Ok_intro (cats : list string) A adj :
  Forall (fun cat =>
            (exists e, calculate_category_emissions cat A adj = Ok e) /\
            (exists i, input_value cat A = Ok i)) cats ->
  exists df, build_rows cats A adj = Ok df.
Proof.
  induction 1 as [|cat rest [[e He] [i Hi]] _ [rows Hrows]]; simpl.
  - eexists; reflexivity.
  - rewrite He, Hi, Hrows. eexists; reflexivity.
Qed.

(** The first call that raises ends the loop with its exception. *)
Lemma build_rows_first_raise (before after : list string) (cat : string)
    A adj (err : pyerror) :
  Forall (fun cat' =>
            (exists e, calculate_category_emissions cat' A adj = Ok e) /\
            (exists i, input_value cat' A = Ok i)) before ->
  calculate_category_emissions cat A adj = Raise err ->
  build_rows (before ++ cat :: after)%list A adj = Raise err.
Proof.
  intros Hbefore Hcat.
  induction Hbefore as [|cat' rest [[e He] [i Hi]] _ IH]; simpl.
  - now rewrite Hcat.
  - rewrite He, Hi, IH. reflexivity.
Qed.

(** The names of the enumeration, each with its call and its displayed
    input, when every call returns. *)
Lemma all_calls_and_inputs A adj :
  (forall c, exists e,
      calculate_category_emissions (category_name c) A adj = Ok e) ->
  Forall (fun cat =>
            (exists e, calculate_category_emissions cat A adj = Ok e) /\
            (exists i, input_value cat A = Ok i))
         (map category_name all_categories).
Proof.
  intros Hall. apply Forall_map, Forall_forall. intros c _.
  destruct (Hall c) as [e He]. split; [now exists e|].
  destruct (calculator_Ok_inv c A adj e He) as (v & Hv & Hkind).
  now apply (input_value_of_accepted c A v).
Qed.

(** X4. The report of an activity dictionary is built exactly when the
    call of each of the ten categories returns, and only when each of the
    ten keys is there with an entry of the right kind: one missing or
    ill-typed entry and the report raises, no data frame is built at
    all. *)
Theorem report_built_iff_all_calls_return A adj :
  ((exists df, get_full_emission_dataframe A adj = Ok df) <->
   (forall c, exists e,
       calculate_category_emissions (category_name c) A adj = Ok e)) /\
  ((exists df, get_full_emission_dataframe A adj = Ok df) ->
   (forall c, exists v,
       A !! activity_key c = Some v /\ accepts c v = true)) /\
  (forall c,
      (A !! activity_key c = None \/
       exists v, A !! activity_key c = Some v /\ accepts c v = false) ->
      raises (get_full_emission_dataframe A adj)).
Proof.
  assert (Hiff :
    (exists df, get_full_emission_dataframe A adj = Ok df) <->
    (forall c, exists e,
        calculate_category_emissions (category_name c) A adj = Ok e)).
  { split.
    - intros [df Hdf] c.
      destruct (build_rows_Ok_inv _ _ _ _ Hdf) as [Hcats Hrows].
      assert (Hin : In (category_name c) (map Category df)).
      { rewrite Hcats. destruct c; simpl; tauto. }
      apply in_map_iff in Hin as (r & Hr & Hin).
      rewrite Forall_forall in Hrows.
      destruct (Hrows r (proj2 (list_elem_of_In _ _) Hin)) as [He _].
      exists (Emissions r). now rewrite <- Hr.
    - intros Hall. apply build_rows_Ok_intro.
      exact (all_calls_and_inputs A adj Hall). }
  assert (Honly :
    (exists df, get_full_emission_dataframe A adj = Ok df) ->
    forall c, exists v, A !! activity_key c = Some v /\ accepts c v = true).
  { intros Hbuilt c. destruct (proj1 Hiff Hbuilt c) as [e He].
    exact (calculator_Ok_inv c A adj e He). }
  split; [exact Hiff|]. split; [exact Honly|].
  intros c Hbad.
  destruct (get_full_emission_dataframe A adj) as [df|err] eqn:Hdf;
    [|exact I].
  destruct (Honly (ex_intro _ df eq_refl) c) as (v & Hv & Hkind).
  destruct Hbad as [Hnone | (v' & Hv' & Hkind')]; congruence.
Qed.

(** X5. In a report that is built, the Activity Data of the nine
    categories with a factor is the entry of the dictionary as it is, and
    the Activity Data of Subcontractors is the sum of the sequence, the
    very number in its Emissions column; the report has the ten rows in
    the order of the enumeration. *)
Theorem report_activity_column A adj (df : list (row T)) :
  get_full_emission_dataframe A adj = Ok df ->
  map Category df = map category_name all_categories /\
  Forall (fun r =>
            exists c,
              Category r = category_name c /\
              match c with
              | Subcontractors => Activity_Data r = VNum (Emissions r)
              | _ => A !! activity_key c = Some (Activity_Data r)
              end) df.
Proof.
  intros Hdf.
  destruct (build_rows_Ok_inv _ _ _ _ Hdf) as [Hcats Hrows].
  split; [exact Hcats|].
  assert (Hnames :
    Forall (fun r => exists c, Category r = category_name c) df).
  { apply Forall_forall. intros r Hr.
    assert (Hin : In (Category r) (map Category df))
      by (apply in_map, list_elem_of_In, Hr).
    rewrite Hcats in Hin.
    change categories with (map category_name all_categories) in Hin.
    apply in_map_iff in Hin as (c & Hc & _).
    now exists c. }
  rewrite Forall_forall in Hrows, Hnames. apply Forall_forall. intros r Hr.
  destruct (Hnames r Hr) as [c Hc]. destruct (Hrows r Hr) as [He Hi].
  exists c. split; [exact Hc|]. rewrite Hc in He, Hi.
  destruct (calculator_Ok_inv c A adj _ He) as (v & Hv & Hkind).
  destruct c; simpl in Hv;
    unfold input_value, subscript in Hi; simpl in Hi; rewrite Hv in Hi;
    try (simpl; congruence).
  unfold calculate_category_emissions, subscript in He; simpl in He.
  rewrite Hv in He. simpl in He, Hi.
  destruct (pysum v) as [total|]; simpl in *; congruence.
Qed.

(** X6. When a call raises, and the calls of the categories before it in
    the enumeration return, the report raises that same exception: the
    first failure in the order of the categories is the one reported. *)
Theorem report_raises_first_error
    c (before after : list EmissionCategory) A adj (err : pyerror) :
  all_categories = (before ++ c :: after)%list ->
  Forall (fun c' => exists e,
            calculate_category_emissions (category_name c') A adj = Ok e)
         before ->
  calculate_category_emissions (category_name c) A adj = Raise err ->
  get_full_emission_dataframe A adj = Raise err.
Proof.
  intros Hsplit Hbefore Hc.
  unfold get_full_emission_dataframe.
  rewrite (categories_enumeration), Hsplit, map_app. simpl.
  apply build_rows_first_raise; [|exact Hc].
  apply Forall_map. rewrite Forall_forall in Hbefore.
  apply Forall_forall. intros c' Hc'.
  destruct (Hbefore c' Hc') as [e He]. split; [now exists e|].
  destruct (calculator_Ok_inv c' A adj e He) as (v & Hv & Hkind).
  now apply (input_value_of_accepted c' A v).
Qed.

End Reads.

Lemma other_keys_do_not_matter_witness :
  "Trucks_km" <> activity_key Cars /\
  calculate_category_emissions (T:=Q) "Cars"
    (<["Trucks_km" := VNum 1%Q]> DEFAULT_ACTIVITY_DATA) None =
  calculate_category_emissions (T:=Q) "Cars" DEFAULT_ACTIVITY_DATA None.
Proof.
  split; [discriminate|].
  apply (other_keys_do_not_matter (T:=Q) Cars DEFAULT_ACTIVITY_DATA None
           "Trucks_km" (VNum 1%Q)).
  discriminate.
Defined.

Lemma calculator_reads_its_adjustments_witness :
  let adj : option (gmap string Q) :=
    Some (<["Load_Factor" := 50%Q]> baseline_adjustments) in
  Forall (fun k => or_empty adj !! k = or_empty (Some baseline_adjustments) !! k)
         (adjustment_keys Cars) /\
  calculate_category_emissions "Cars" DEFAULT_ACTIVITY_DATA adj =
  calculate_category_emissions "Cars" DEFAULT_ACTIVITY_DATA
    (Some baseline_adjustments).
Proof.
  assert (Hkeys :
    Forall (fun k =>
              or_empty (Some (<["Load_Factor" := 50%Q]> baseline_adjustments))
                !! k
              = or_empty (Some (baseline_adjustments (T:=Q))) !! k)
           (adjustment_keys Cars))
    by (repeat constructor).
  split; [exact Hkeys|].
  exact (calculator_reads_its_adjustments (T:=Q) Cars DEFAULT_ACTIVITY_DATA
           _ _ Hkeys).
Defined.

Lemma report_activity_column_witness :
  exists df : list (row Q),
    get_full_emission_dataframe DEFAULT_ACTIVITY_DATA None = Ok df /\
    map Category df = map category_name all_categories.
Proof.
  eexists. split; [reflexivity|].
  apply (report_activity_column (T:=Q) DEFAULT_ACTIVITY_DATA None).
  reflexivity.
Defined.

Lemma report_raises_first_error_witness :
  let A : gmap string (pyval Q) := delete "Buses_km" DEFAULT_ACTIVITY_DATA in
  calculate_category_emissions "Buses" A None = Raise (KeyError "Buses_km") /\
  get_full_emission_dataframe A None = Raise (KeyError "Buses_km").
Proof.
  split; [reflexivity|].
  apply (report_raises_first_error (T:=Q) Buses [Cars; Trucks]
           [Forklifts; CargoPlanes; OfficeLighting; Heating; Cooling;
            Computing; Subcontractors]).
  - reflexivity.
  - repeat constructor; eexists; reflexivity.
  - reflexivity.
Defined.

(** *** Signs and reductions *)

Lemma scale_nonneg (x s : Q) : 0 <= x -> 0 <= s -> 0 <= x * s.
Proof. intros Hx Hs. now apply Qmult_le_0_compat. Qed.

(** A product of factors that are not negative grows with each of
    them. *)
Lemma product_le (b f f' g g' : Q) :
  0 <= b -> 0 <= f' <= f -> 0 <= g' <= g -> b * f' * g' <= b * f * g.
Proof.
  intros Hb [Hf0 Hf] [Hg0 Hg].
  apply Qmult_le_compat_nonneg; [|now split].
  split; [now apply Qmult_le_0_compat|].
  apply Qmult_le_compat_nonneg; [split; [exact Hb | apply Qle_refl] | now split].
Qed.

(** X7. With the percentages in [[0, 100]], a category whose input is not
    negative has emissions that are not negative. *)
Theorem emissions_nonnegative
    (c : EmissionCategory) (a : activity Q) (adj : option (gmap string Q)) :
  percentages_in_range adj ->
  0 <= activity_input c a ->
  exists e,
    calculate_category_emissions (category_name c) (current_activity_data a)
      adj = Ok e /\
    0 <= e.
Proof.
  intros (Hev & Hkm & Hlf) Hin.
  destruct c; simpl in Hin;
    eexists; (split; [reflexivity|]);
    to_rationals;
    repeat apply scale_nonneg;
    lazymatch goal with
    | |- context ["EV_Share"] => exact (ev_factor_nonneg _ Hev)
    | |- context ["KM_Reduction"] => exact (km_factor_nonneg _ Hkm)
    | |- context ["Load_Factor"] => apply Hlf
    | |- _ => first [exact Hin | compute; discriminate]
    end.
Qed.

(** The Cars and the Cargo Planes emissions of a record as functions of
    the percentages. *)
Lemma cars_antitone (x ev ev' km km' : Q) :
  0 <= x -> 0 <= ev <= ev' -> ev' <= 100 -> 0 <= km <= km' -> km' <= 100 ->
  x * 0.18 * (1 - 0.7 * ev' / 100) * (1 - km' / 100) / 1000 <=
  x * 0.18 * (1 - 0.7 * ev / 100) * (1 - km / 100) / 1000.
Proof.
  intros Hx [Hev0 Hev] Hev' [Hkm0 Hkm] Hkm'.
  apply Qmult_le_compat_r; [|compute; discriminate].
  apply product_le.
  - apply scale_nonneg; [exact Hx | compute; discriminate].
  - split; [apply ev_factor_nonneg; split; [|exact Hev'] |];
      linear_with_division.
  - split; [apply km_factor_nonneg; split; [|exact Hkm'] |];
      linear_with_division.
Qed.

Lemma planes_monotone (h lf lf' : Q) :
  0 <= h -> lf <= lf' ->
  h * 9000 * (lf / 100) / 1000 <= h * 9000 * (lf' / 100) / 1000.
Proof.
  intros Hh Hlf.
  apply Qmult_le_compat_r; [|compute; discriminate].
  rewrite (Qmult_comm (h * 9000) (lf / 100)).
  rewrite (Qmult_comm (h * 9000) (lf' / 100)).
  apply Qmult_le_compat_r.
  - apply Qmult_le_compat_r; [exact Hlf | compute; discriminate].
  - apply scale_nonneg; [exact Hh | compute; discriminate].
Qed.

(** The column sums of the reports of a record under two adjustments, one
    at least as reducing as the other. *)
Lemma column_sums_antitone
    (a : activity Q) (adj adj' : option (gmap string Q)) :
  0 <= Cars_km a -> 0 <= Planes_hr a ->
  0 <= get (or_empty adj) "EV_Share" 0 <= get (or_empty adj') "EV_Share" 0 ->
  get (or_empty adj') "EV_Share" 0 <= 100 ->
  0 <= get (or_empty adj) "KM_Reduction" 0
    <= get (or_empty adj') "KM_Reduction" 0 ->
  get (or_empty adj') "KM_Reduction" 0 <= 100 ->
  get (or_empty adj') "Load_Factor" 100 <= get (or_empty adj) "Load_Factor" 100 ->
  exists df df',
    get_full_emission_dataframe (current_activity_data a) adj = Ok df /\
    get_full_emission_dataframe (current_activity_data a) adj' = Ok df' /\
    column_sum df' <= column_sum df.
Proof.
  intros Hcars Hplanes Hev Hev' Hkm Hkm' Hlf.
  do 2 eexists. split; [reflexivity|]. split; [reflexivity|].
  unfold column_sum, emissions_column. simpl map. simpl fold_left.
  to_rationals.
  repeat (apply Qplus_le_compat; try apply Qle_refl).
  - now apply cars_antitone.
  - now apply planes_monotone.
Qed.

(** X8. The total of a record never grows when the adjustments reduce
    more: with distances and flight hours that are not negative, an EV
    share and a distance reduction at least as large (within [[0, 100]])
    and a load factor at most as large give a total at most as large. The
    baseline, at 0, 0 and 100, is therefore never below a scenario with
    percentages in range. *)
Theorem total_antitone_in_reductions
    (a : activity Q) (adj adj' : option (gmap string Q)) :
  let ev d := get (or_empty d) "EV_Share" 0 in
  let km d := get (or_empty d) "KM_Reduction" 0 in
  let lf d := get (or_empty d) "Load_Factor" 100 in
  0 <= Cars_km a -> 0 <= Planes_hr a ->
  0 <= ev adj <= ev adj' -> ev adj' <= 100 ->
  0 <= km adj <= km adj' -> km adj' <= 100 ->
  lf adj' <= lf adj ->
  exists t t',
    total_co2 (current_activity_data a) adj = Ok t /\
    total_co2 (current_activity_data a) adj' = Ok t' /\
    t' <= t.
Proof.
  intros ev km lf Hcars Hplanes Hev Hev' Hkm Hkm' Hlf.
  destruct (column_sums_antitone a adj adj' Hcars Hplanes Hev Hev' Hkm Hkm' Hlf)
    as (df & df' & Hdf & Hdf' & Hle).
  exists (column_sum df), (column_sum df').
  split; [exact (total_co2_column_sum _ _ _ Hdf)|].
  split; [exact (total_co2_column_sum _ _ _ Hdf') | exact Hle].
Qed.

(** X9. The saving of a scenario, the baseline total minus its total, is
    what the Cars and the Cargo Planes rows lose:
    [cars_km * 0.18 / 1000 * (1 - (1 - 0.7 * ev/100) * (1 - km/100))]
    plus [plane_hours * 9000 / 1000 * (1 - lf/100)], for the percentages
    the scenario holds or defaults to. No other row enters, and both
    reports are built. *)
Theorem saving_is_cars_and_planes
    (a : activity Q) (adj : option (gmap string Q)) :
  let ev := get (or_empty adj) "EV_Share" 0 in
  let km := get (or_empty adj) "KM_Reduction" 0 in
  let lf := get (or_empty adj) "Load_Factor" 100 in
  exists baseline optimized,
    total_co2 (current_activity_data a) (Some baseline_adjustments)
      = Ok baseline /\
    total_co2 (current_activity_data a) adj = Ok optimized /\
    baseline - optimized ==
      Cars_km a * 0.18 / 1000 * (1 - (1 - 0.7 * ev / 100) * (1 - km / 100))
      + Planes_hr a * 9000 / 1000 * (1 - lf / 100).
Proof.
  intros ev km lf. subst ev km lf.
  do 2 eexists. split; [reflexivity|]. split; [reflexivity|].
  unfold column_sum, emissions_column. simpl map. simpl fold_left.
  unfold baseline_adjustments. resolve_get.
  to_rationals. unfold or_empty.
  change (inject_Z 0) with 0. change (inject_Z 100) with 100.
  field.
Qed.

(** X10. However large the EV share up to 100, the Cars emissions of a
    record with a distance that is not negative keep at least 30% of what
    the distance reduction alone leaves: the coefficient 0.7 caps the
    effect of electric vehicles at 70%. *)
Theorem ev_share_saves_at_most_70_percent
    (a : activity Q) (adj : option (gmap string Q)) :
  let ev := get (or_empty adj) "EV_Share" 0 in
  let km := get (or_empty adj) "KM_Reduction" 0 in
  0 <= Cars_km a -> ev <= 100 -> km <= 100 ->
  exists e,
    calculate_category_emissions "Cars" (current_activity_data a) adj
      = Ok e /\
    0.3 * (Cars_km a * 0.18 * (1 - km / 100) / 1000) <= e.
Proof.
  intros ev km Hcars Hev Hkm. subst ev km.
  eexists. split; [apply cars_on_record|].
  cbv zeta. to_rationals. change (inject_Z 0) with 0.
  set (EV := get (or_empty adj) "EV_Share" 0) in *.
  set (KM := get (or_empty adj) "KM_Reduction" 0) in *.
  assert (Hg : 0 <= 1 - KM / 100) by linear_with_division.
  assert (Hf : 0.3 <= 1 - 0.7 * EV / 100) by linear_with_division.
  assert (E : 0.3 * (Cars_km a * 0.18 * (1 - KM / 100) / 1000) ==
              Cars_km a * 0.18 * 0.3 * (1 - KM / 100) / 1000) by field.
  rewrite E. apply Qmult_le_compat_r; [|compute; discriminate].
  apply product_le.
  - apply scale_nonneg; [exact Hcars | compute; discriminate].
  - split; [compute; discriminate | exact Hf].
  - split; [exact Hg | apply Qle_refl].
Qed.

(** The sum of two sequences in a row. *)
Lemma fold_left_Qplus_app (xs ys : list Q) (acc : Q) :
  fold_left Qplus (xs ++ ys)%list acc ==
  fold_left Qplus xs acc + fold_left Qplus ys 0.
Proof.
  rewrite fold_left_app, !fold_left_Qplus. ring.
Qed.

(** X11. The total is additive over sites: for the same adjustments, the
    total of the activity of two sites taken together is the sum of their
    totals, and all three reports are built. *)
Theorem total_of_two_sites
    (a b : activity Q) (adj : option (gmap string Q)) :
  exists ta tb tab,
    total_co2 (current_activity_data a) adj = Ok ta /\
    total_co2 (current_activity_data b) adj = Ok tb /\
    total_co2 (current_activity_data (combine_sites a b)) adj = Ok tab /\
    tab == ta + tb.
Proof.
  do 3 eexists. split; [reflexivity|]. split; [reflexivity|].
  split; [reflexivity|].
  unfold column_sum, emissions_column. simpl map. simpl fold_left.
  to_rationals. 
  rewrite (fold_left_Qplus_app (Subcontractors_tCO2e a)
             (Subcontractors_tCO2e b) (inject_Z 0)).
  change (inject_Z 0) with 0. field.
Qed.

Lemma emissions_nonnegative_witness :
  let adj := Some (optimized_adjustments 30 10 80) in
  percentages_in_range adj /\
  0 <= activity_input Cars default_activity /\
  exists e,
    calculate_category_emissions "Cars"
      (current_activity_data default_activity) adj = Ok e /\
    0 <= e.
Proof.
  assert (Hrange : percentages_in_range (Some (optimized_adjustments 30 10 80)))
    by (repeat split; vm_compute; discriminate).
  assert (Hin : 0 <= activity_input Cars default_activity)
    by (vm_compute; discriminate).
  split; [exact Hrange|]. split; [exact Hin|].
  exact (emissions_nonnegative Cars default_activity _ Hrange Hin).
Defined.

Lemma total_antitone_in_reductions_witness :
  exists t t',
    total_co2 (current_activity_data default_activity)
      (Some baseline_adjustments) = Ok t /\
    total_co2 (current_activity_data default_activity)
      (Some (optimized_adjustments 30 10 80)) = Ok t' /\
    t' <= t.
Proof.
  apply (total_antitone_in_reductions default_activity
           (Some baseline_adjustments)
           (Some (optimized_adjustments 30 10 80)));
    repeat split; vm_compute; discriminate.
Defined.

Lemma ev_share_saves_at_most_70_percent_witness :
  exists e,
    calculate_category_emissions "Cars"
      (current_activity_data default_activity)
      (Some (optimized_adjustments 100 10 80)) = Ok e /\
    0.3 * (Cars_km default_activity * 0.18 * (1 - 10 / 100) / 1000) <= e.
Proof.
  apply (ev_share_saves_at_most_70_percent default_activity
           (Some (optimized_adjustments 100 10 80)));
    vm_compute; discriminate.
Defined.

(** *** The pie chart *)

(** The comparison of the rationals is the strict order. *)
Lemma gt_Q (x y : Q) : py_gt x y = true <-> y < x.
Proof.
  unfold py_gt, Q_PyOrd. rewrite negb_true_iff.
  split.
  - intros Hle. apply Qnot_le_lt. intros Hxy.
    apply Qle_bool_iff in Hxy. congruence.
  - intros Hlt. destruct (Qle_bool x y) eqn:Hle; [|reflexivity].
    apply Qle_bool_iff in Hle. exfalso. exact (Qlt_not_le _ _ Hlt Hle).
Qed.

(** The threshold of the pie chart. *)
Lemma pie_threshold : lit 1 1000 == 0.001.
Proof. reflexivity. Qed.

(** No two categories share a label. *)
Lemma category_name_inj (c c' : EmissionCategory) :
  category_name c = category_name c' -> c = c'.
Proof. destruct c, c'; simpl; intros Heq; try reflexivity; discriminate Heq. Qed.

(** X12. In a report that is built, a category is on the pie chart
    exactly when its emissions exceed 0.001 tons: a category at or below
    one kilogram is left out of the chart, though it counts in the
    total. *)
Theorem pie_shows_emissions_above_threshold
    (A : gmap string (pyval Q)) (adj : option (gmap string Q))
    (df : list (row Q)) (c : EmissionCategory) :
  get_full_emission_dataframe A adj = Ok df ->
  (In (category_name c) (map Category (df_pie df)) <->
   exists e,
     calculate_category_emissions (category_name c) A adj = Ok e /\
     0.001 < e).
Proof.
  intros Hdf.
  destruct (build_rows_Ok_inv _ _ _ _ Hdf) as [Hcats Hrows].
  rewrite Forall_forall in Hrows.
  split.
  - intros Hin. apply in_map_iff in Hin as (r & Hr & Hin).
    apply filter_In in Hin as [Hin Hgt].
    destruct (Hrows r (proj2 (list_elem_of_In _ _) Hin)) as [He _].
    exists (Emissions r). rewrite <- Hr. split; [exact He|].
    apply gt_Q in Hgt. now rewrite pie_threshold in Hgt.
  - intros (e & He & Hgt).
    assert (Hin : In (category_name c) (map Category df)).
    { rewrite Hcats. destruct c; simpl; tauto. }
    apply in_map_iff in Hin as (r & Hr & Hin).
    destruct (Hrows r (proj2 (list_elem_of_In _ _) Hin)) as [He' _].
    rewrite Hr, He in He'. injection He' as ->.
    apply in_map_iff. exists r. split; [exact Hr|].
    apply filter_In. split; [exact Hin|].
    apply gt_Q. now rewrite pie_threshold.
Qed.

(** A category without input has a result equal to zero. *)
Lemma zero_input_zero_result
    (c : EmissionCategory) (a : activity Q) (adj : option (gmap string Q))
    (e : Q) :
  activity_input c a == 0 ->
  calculate_category_emissions (category_name c) (current_activity_data a)
    adj = Ok e ->
  e == 0.
Proof.
  intros Hzero He.
  assert (Hr :
    returns
      (calculate_category_emissions (category_name c)
         (current_activity_data a) adj) 0).
  { destruct c; simpl in Hzero;
      (eapply returns_Ok; [reflexivity | to_rationals]);
      rewrite Hzero; field. }
  rewrite He in Hr. exact Hr.
Qed.

(** A filter that rejects every element keeps none. *)
Lemma filter_none {A : Type} (f : A -> bool) (l : list A) :
  Forall (fun x => f x = false) l -> List.filter f l = [].
Proof.
  induction 1 as [|x l Hx _ IH]; simpl; [reflexivity|].
  now rewrite Hx.
Qed.

(** X13. Without activity there is no pie chart: when the input of every
    category is zero, the report of the record is built and the pie
    section shows its notice instead of a chart, whatever the
    adjustments. *)
Theorem no_activity_no_pie
    (a : activity Q) (adj : option (gmap string Q)) :
  (forall c, activity_input c a == 0) ->
  exists df,
    get_full_emission_dataframe (current_activity_data a) adj = Ok df /\
    pie_section df
    = Info "No activity data entered to generate the pie chart.".
Proof.
  intros Hzero.
  destruct (build_rows_Ok_intro categories (current_activity_data a) adj)
    as [df Hdf].
  { apply (all_calls_and_inputs (current_activity_data a) adj).
    intros c. apply calculator_total. }
  exists df. split; [exact Hdf|].
  unfold pie_section, df_pie. rewrite filter_none; [reflexivity|].
  destruct (build_rows_Ok_inv _ _ _ _ Hdf) as [Hcats Hrows].
  rewrite Forall_forall in Hrows. apply Forall_forall. intros r Hr.
  destruct (Hrows r Hr) as [He _].
  assert (Hin : In (Category r) (map Category df))
    by (apply in_map, list_elem_of_In, Hr).
  rewrite Hcats in Hin.
  change categories with (map category_name all_categories) in Hin.
  apply in_map_iff in Hin as (c & Hc & _). rewrite <- Hc in He.
  pose proof (zero_input_zero_result c a adj _ (Hzero c) He) as He0.
  destruct (py_gt (Emissions r) (lit 1 1000)) eqn:Hgt; [|reflexivity].
  apply gt_Q in Hgt. rewrite pie_threshold, He0 in Hgt.
  discriminate Hgt.
Qed.

Lemma pie_shows_emissions_above_threshold_witness :
  exists df : list (row Q),
    get_full_emission_dataframe DEFAULT_ACTIVITY_DATA None = Ok df /\
    (In "Forklifts" (map Category (df_pie df)) <->
     exists e,
       calculate_category_emissions "Forklifts" DEFAULT_ACTIVITY_DATA None
         = Ok e /\
       0.001 < e).
Proof.
  eexists. split; [reflexivity|].
  apply (pie_shows_emissions_above_threshold DEFAULT_ACTIVITY_DATA None _
           Forklifts).
  reflexivity.
Defined.

Lemma no_activity_no_pie_witness :
  let a := {| Cars_km := 0; Trucks_km := 0; Buses_km := 0;
              Forklifts_hr := 0; Planes_hr := 0; Lighting_kWh := 0;
              Heating_kWhth := 0; Cooling_kWh := 0; Computing_kWh := 0;
              Subcontractors_tCO2e := [0; 0; 0] |} in
  (forall c, activity_input c a == 0) /\
  exists df,
    get_full_emission_dataframe (current_activity_data a)
      (Some (optimized_adjustments 30 10 80)) = Ok df /\
    pie_section df
    = Info "No activity data entered to generate the pie chart.".
Proof.
  intros a.
  assert (Hzero : forall c, activity_input c a == 0)
    by (intros c; destruct c; reflexivity).
  split; [exact Hzero|].
  exact (no_activity_no_pie a _ Hzero).
Defined.

(** ** The session *)

Section SessionFacts.
Context {T : Type} `{PyNum T}.

(** The cell of the list of the [DEFAULT_ACTIVITY_DATA] of the run whose
    state initialization and callbacks are considered. *)
Variable DEFAULT_Subcontractors : loc.
Implicit Types (w : world T) (h : gmap loc (list T)) (l : loc).
Implicit Types (numbers : gmap string T) (key : string).

Lemma cell_insert_eq h l (xs : list T) : cell (<[l := xs]> h) l = xs.
Proof. unfold cell. now rewrite lookup_insert_eq. Qed.

Lemma cell_insert_ne h l l' (xs : list T) :
  l <> l' -> cell (<[l := xs]> h) l' = cell h l'.
Proof. intros Hne. unfold cell. now rewrite lookup_insert_ne. Qed.

(** A cell that holds figures is allocated. *)
Lemma cell_allocated h l :
  length (cell h l) <> 0%nat -> l ∈ dom h.
Proof.
  unfold cell. intros Hlen. apply elem_of_dom.
  destruct (h !! l); [eauto | contradiction].
Qed.

Lemma set_if_missing_present key (v : T) numbers :
  is_Some (set_if_missing key v numbers !! key).
Proof.
  unfold set_if_missing.
  destruct (numbers !! key) eqn:Hk; [now rewrite Hk|].
  rewrite lookup_insert_eq. eauto.
Qed.

Lemma set_if_missing_keeps key key' (v x : T) numbers :
  numbers !! key' = Some x -> set_if_missing key v numbers !! key' = Some x.
Proof.
  intros Hx. unfold set_if_missing.
  destruct (numbers !! key) eqn:Hk; [exact Hx|].
  rewrite lookup_insert_ne; [exact Hx | congruence].
Qed.

Lemma set_if_missing_id key (v : T) numbers :
  is_Some (numbers !! key) -> set_if_missing key v numbers = numbers.
Proof. intros [x Hx]. unfold set_if_missing. now rewrite Hx. Qed.

Lemma set_if_missing_is_Some key key' (v : T) numbers :
  is_Some (numbers !! key') -> is_Some (set_if_missing key v numbers !! key').
Proof. intros [x Hx]. exists x. now apply set_if_missing_keeps. Qed.

(** The numbers of the session after the state initialization. *)
Lemma state_initialization_Done w :
  exists numbers,
    state_initialization DEFAULT_Subcontractors w =
    Done {| heap := heap w;
            session :=
              {| st_activity_data :=
                   Some (match st_activity_data (session w) with
                         | Some d => d
                         | None =>
                             DEFAULT_ACTIVITY_DATA_object
                               DEFAULT_Subcontractors
                         end);
                 st_numbers := numbers |} |} /\
    numbers =
      set_if_missing "Cars_km" (of_int 250000)
        (set_if_missing "adj_load_factor" (of_int 80)
           (set_if_missing "adj_km_red" (of_int 10)
              (set_if_missing "adj_ev_share" (of_int 30)
                 (st_numbers (session w))))).
Proof.
  eexists. split; [|reflexivity].
  unfold state_initialization.
  set (numbers := set_if_missing "adj_load_factor" _ _).
  unfold set_if_missing at 1.
  destruct (numbers !! "Cars_km"); reflexivity.
Qed.

(** X14. The state initialization never raises, fills in only what is
    missing and leaves the lists alone: every key the session already has
    keeps its value, afterwards the activity data, the three sliders and
    ['Cars_km'] are there, and a second initialization changes nothing. *)
Theorem state_initialization_fills_what_is_missing w :
  exists w',
    state_initialization DEFAULT_Subcontractors w = Done w' /\
    state_initialization DEFAULT_Subcontractors w' = Done w' /\
    heap w' = heap w /\
    (forall d, st_activity_data (session w) = Some d ->
               st_activity_data (session w') = Some d) /\
    (forall key x, st_numbers (session w) !! key = Some x ->
                   st_numbers (session w') !! key = Some x) /\
    is_Some (st_activity_data (session w')) /\
    Forall (fun key => is_Some (st_numbers (session w') !! key))
           ["adj_ev_share"; "adj_km_red"; "adj_load_factor"; "Cars_km"].
Proof.
  destruct (state_initialization_Done w) as (numbers & Hw & Hnumbers).
  eexists. split; [exact Hw|].
  assert (Hpresent :
    Forall (fun key => is_Some (numbers !! key))
           ["adj_ev_share"; "adj_km_red"; "adj_load_factor"; "Cars_km"]).
  { rewrite Hnumbers. repeat constructor;
      repeat first [ apply set_if_missing_present
                   | apply set_if_missing_is_Some ]. }
  split.
  - destruct (state_initialization_Done
                {| heap := heap w;
                   session :=
                     {| st_activity_data :=
                          Some (match st_activity_data (session w) with
                                | Some d => d
                                | None =>
                                    DEFAULT_ACTIVITY_DATA_object
                                      DEFAULT_Subcontractors
                                end);
                        st_numbers := numbers |} |})
      as (numbers' & Hw' & Hnumbers').
    rewrite Hw'. simpl in Hnumbers'. simpl.
    pose proof Hpresent as Hall.
    apply Forall_cons in Hall as [Hev Hall].
    apply Forall_cons in Hall as [Hkm Hall].
    apply Forall_cons in Hall as [Hlf Hall].
    apply Forall_cons in Hall as [Hcars _].
    rewrite (set_if_missing_id "adj_ev_share") in Hnumbers' by exact Hev.
    rewrite (set_if_missing_id "adj_km_red") in Hnumbers' by exact Hkm.
    rewrite (set_if_missing_id "adj_load_factor") in Hnumbers' by exact Hlf.
    rewrite (set_if_missing_id "Cars_km") in Hnumbers' by exact Hcars.
    now rewrite Hnumbers'.
  - simpl. split; [reflexivity|]. split.
    { intros d Hd. now rewrite Hd. }
    split.
    { intros key x Hx. rewrite Hnumbers.
      now repeat apply set_if_missing_keeps. }
    split; [eauto | exact Hpresent].
Qed.

(** *** The callbacks *)

(** The key of a subcontractor input is none of the slider keys. *)
Lemma sub_key_not_a_slider (index : Z) :
  sub_key index <> "adj_ev_share" /\
  sub_key index <> "adj_km_red" /\
  sub_key index <> "adj_load_factor".
Proof. unfold sub_key. repeat split; discriminate. Qed.

(** A position is inside the list. *)
Lemma position_lt (index : Z) (n i : nat) :
  position index n = Some i -> (i < n)%nat.
Proof.
  unfold position.
  destruct (index <? 0)%Z;
    match goal with
    | |- context [(?a && ?b)%bool] => destruct (a && b)%bool eqn:Hrange
    end; try discriminate;
    intros [= <-]; apply andb_true_iff in Hrange as [Hlo Hhi];
    apply Z.leb_le in Hlo; apply Z.ltb_lt in Hhi; lia.
Qed.

(** The indices the script passes, on a list of three. *)
Lemma position_of_three (index : Z) :
  (0 <= index < 3)%Z -> position index 3 = Some (Z.to_nat index).
Proof.
  intros [Hlo Hhi]. unfold position.
  destruct (index <? 0)%Z eqn:Hneg; [apply Z.ltb_lt in Hneg; lia|].
  assert (Hrange : ((0 <=? index) && (index <? Z.of_nat 3))%Z = true).
  { apply andb_true_iff. split; [apply Z.leb_le | apply Z.ltb_lt]; lia. }
  now rewrite Hrange.
Qed.

(** When the number, the list and the position are there, the item is
    assigned. *)
Lemma update_sub_data_Done (index : Z) w (v : T)
    (d : gmap string (entry T)) l (i : nat) :
  st_numbers (session w) !! sub_key index = Some v ->
  st_activity_data (session w) = Some d ->
  d !! "Subcontractors_tCO2e" = Some (EList l) ->
  position index (length (cell (heap w) l)) = Some i ->
  update_sub_data index w =
  Done {| heap := <[l := <[i := v]> (cell (heap w) l)]> (heap w);
          session := session w |}.
Proof.
  intros Hv Hd Hl Hi.
  unfold update_sub_data, number_at, activity_data_of, entry_at.
  rewrite Hv. simpl. rewrite Hd. simpl. rewrite Hl. simpl.
  now rewrite Hi.
Qed.

(** And the item is assigned in no other case. *)
Lemma update_sub_data_inv (index : Z) w w' :
  update_sub_data index w = Done w' ->
  exists (v : T) (d : gmap string (entry T)) l (i : nat),
    st_numbers (session w) !! sub_key index = Some v /\
    st_activity_data (session w) = Some d /\
    d !! "Subcontractors_tCO2e" = Some (EList l) /\
    position index (length (cell (heap w) l)) = Some i /\
    w' = {| heap := <[l := <[i := v]> (cell (heap w) l)]> (heap w);
            session := session w |}.
Proof.
  unfold update_sub_data, number_at, activity_data_of, entry_at.
  destruct (st_numbers (session w) !! sub_key index) as [v|] eqn:Hv;
    [|discriminate].
  destruct (st_activity_data (session w)) as [d|] eqn:Hd; [|discriminate].
  simpl.
  destruct (d !! "Subcontractors_tCO2e") as [[x|l]|] eqn:Hl;
    try discriminate.
  simpl.
  destruct (position index (length (cell (heap w) l))) as [i|] eqn:Hi;
    [|discriminate].
  intros [= <-]. now exists v, d, l, i.
Qed.

(** X15. When [update_sub_data] returns, the session is as it was, the
    list of the session has the number of the input at the position the
    index designates (counted from the end when negative) and is
    otherwise the list it was, of the same length, and no other list has
    changed. *)
Theorem update_sub_data_effect (index : Z) w w' :
  update_sub_data index w = Done w' ->
  session w' = session w /\
  exists (v : T) (d : gmap string (entry T)) l (i : nat),
    st_numbers (session w) !! sub_key index = Some v /\
    st_activity_data (session w) = Some d /\
    d !! "Subcontractors_tCO2e" = Some (EList l) /\
    position index (length (cell (heap w) l)) = Some i /\
    cell (heap w') l !! i = Some v /\
    (forall j, j <> i -> cell (heap w') l !! j = cell (heap w) l !! j) /\
    length (cell (heap w') l) = length (cell (heap w) l) /\
    (forall l', l' <> l -> heap w' !! l' = heap w !! l').
Proof.
  intros Hdone.
  destruct (update_sub_data_inv index w w' Hdone)
    as (v & d & l & i & Hv & Hd & Hl & Hi & ->).
  simpl. split; [reflexivity|].
  exists v, d, l, i. rewrite cell_insert_eq.
  repeat split; try assumption.
  - apply list_lookup_insert_eq. now apply position_lt with index.
  - intros j Hj. now apply list_lookup_insert_ne.
  - apply length_insert.
  - intros l' Hl'. now apply lookup_insert_ne.
Qed.

(** Look through a callback at the heap and the session it builds. *)
Ltac project :=
  unfold load_sample_data, reset_data;
  cbn [heap session st_activity_data st_numbers].

(** The list the script builds when it is executed is a new one, none
    of the lists there are. *)
Lemma define_DEFAULT_ACTIVITY_DATA_fresh h l :
  l ∈ dom h -> fresh (dom h) <> l.
Proof. intros Hl Heq. apply (is_fresh (dom h)). now rewrite Heq. Qed.

(** The subcontractor figures of a session that holds a copy of
    [DEFAULT_ACTIVITY_DATA] are the list of [DEFAULT_ACTIVITY_DATA]. *)
Lemma subcontractors_of_copy h l numbers :
  subcontractors_of
    {| heap := h;
       session := {| st_activity_data := Some (DEFAULT_ACTIVITY_DATA_object l);
                     st_numbers := numbers |} |}
  = Done (VList (cell h l)).
Proof. reflexivity. Qed.

(** X16. [load_sample_data] stores a shallow copy: the activity data of
    the session and the [DEFAULT_ACTIVITY_DATA] the function sees hold the
    same list. An [update_sub_data] after it writes the number of the
    input into that list. As long as the script is not executed again,
    loading the sample data once more gives a session whose list still
    has that number. Once the script has been executed again, lines 26-38
    have built a new [DEFAULT_ACTIVITY_DATA] with a list of its own: the
    session still holds the list that was written to, and the
    [load_sample_data] of that run gives [[120, 45, 20]]. *)
Theorem sample_data_share_the_default_list (index : Z) w (v : T) (i : nat) :
  st_numbers (session w) !! sub_key index = Some v ->
  position index (length (cell (heap w) DEFAULT_Subcontractors)) = Some i ->
  let written := <[i := v]> (cell (heap w) DEFAULT_Subcontractors) in
  exists w',
    update_sub_data index (load_sample_data DEFAULT_Subcontractors w)
    = Done w' /\
    cell (heap w') DEFAULT_Subcontractors = written /\
    written !! i = Some v /\
    subcontractors_of (load_sample_data DEFAULT_Subcontractors w')
    = Done (VList written) /\
    let next := define_DEFAULT_ACTIVITY_DATA w' in
    next.1 <> DEFAULT_Subcontractors /\
    subcontractors_of next.2 = Done (VList written) /\
    subcontractors_of (load_sample_data next.1 next.2)
    = Done (VList [of_int 120; of_int 45; of_int 20]).
Proof.
  intros Hv Hi written.
  destruct (sub_key_not_a_slider index) as (Hev & Hkm & Hlf).
  eexists. split.
  - apply (update_sub_data_Done index
             (load_sample_data DEFAULT_Subcontractors w) v
             (DEFAULT_ACTIVITY_DATA_object DEFAULT_Subcontractors)
             DEFAULT_Subcontractors i).
    + simpl. rewrite !lookup_insert_ne by congruence. exact Hv.
    + reflexivity.
    + reflexivity.
    + exact Hi.
  - project. fold written.
    assert (Hnew :
      fresh (dom (<[DEFAULT_Subcontractors := written]> (heap w)))
      <> DEFAULT_Subcontractors).
    { apply define_DEFAULT_ACTIVITY_DATA_fresh.
      apply elem_of_dom. rewrite lookup_insert_eq. eauto. }
    split; [apply cell_insert_eq|]. split.
    { apply list_lookup_insert_eq. now apply position_lt with index. }
    split.
    { rewrite subcontractors_of_copy. now rewrite cell_insert_eq. }
    unfold define_DEFAULT_ACTIVITY_DATA. cbn [fst snd heap session].
    split; [exact Hnew|]. split.
    + rewrite subcontractors_of_copy.
      rewrite cell_insert_ne by exact Hnew. now rewrite cell_insert_eq.
    + cbn [st_numbers]. rewrite subcontractors_of_copy.
      now rewrite cell_insert_eq.
Qed.

(** The fresh cell of [reset_data] is none of the cells in use. *)
Lemma reset_data_fresh w : fresh (dom (heap w)) ∉ dom (heap w).
Proof. apply is_fresh. Qed.

(** The dictionary comprehension of [reset_data] holds 0 under each of
    the nine numeric keys. *)
Lemma zeros_lookup (c : EmissionCategory) :
  c <> Subcontractors ->
  ((fun _ => ENum (of_int 0)) <$>
   filter (fun kv => kv.1 <> "Subcontractors_tCO2e")
          (DEFAULT_ACTIVITY_DATA_object (T:=T) DEFAULT_Subcontractors))
    !! activity_key c
  = Some (ENum (of_int 0)).
Proof.
  intros Hc. rewrite lookup_fmap.
  assert (Hentry : exists e : entry T,
             DEFAULT_ACTIVITY_DATA_object DEFAULT_Subcontractors
               !! activity_key c = Some e)
    by (destruct c; eexists; reflexivity).
  destruct Hentry as [e He].
  rewrite (map_lookup_filter_Some_2 _ _ _ e He); [reflexivity|].
  destruct c; try discriminate; contradiction.
Qed.

(** X17. [reset_data] touches only what it names. It changes no list
    that exists, that of [DEFAULT_ACTIVITY_DATA] included, and no key of
    the session other than the activity data and the three sliders: the
    number inputs keep their values. The new activity data hold 0 under
    the nine numeric keys and the list [[0, 0, 0]] in a cell of its own,
    and the sliders are at 0, 0 and 100. *)
Theorem reset_data_touches_only_what_it_names w :
  let w' := reset_data DEFAULT_Subcontractors w in
  (forall l, l ∈ dom (heap w) -> heap w' !! l = heap w !! l) /\
  (forall key,
      key <> "adj_ev_share" -> key <> "adj_km_red" ->
      key <> "adj_load_factor" ->
      st_numbers (session w') !! key = st_numbers (session w) !! key) /\
  (st_numbers (session w') !! "adj_ev_share" = Some (of_int 0) /\
   st_numbers (session w') !! "adj_km_red" = Some (of_int 0) /\
   st_numbers (session w') !! "adj_load_factor" = Some (of_int 100)) /\
  exists (d : gmap string (entry T)) l,
    st_activity_data (session w') = Some d /\
    (forall c, c <> Subcontractors ->
               d !! activity_key c = Some (ENum (of_int 0))) /\
    d !! "Subcontractors_tCO2e" = Some (EList l) /\
    (l ∉ dom (heap w)) /\
    cell (heap w') l = [of_int 0; of_int 0; of_int 0].
Proof.
  intros w'. subst w'. unfold reset_data.
  cbn [heap session st_numbers st_activity_data].
  split.
  { intros l Hl. apply lookup_insert_ne. intros <-.
    exact (reset_data_fresh w Hl). }
  split.
  { intros key Hev Hkm Hlf. now rewrite !lookup_insert_ne by congruence. }
  split.
  { repeat split.
    - rewrite !lookup_insert_ne by discriminate. apply lookup_insert_eq.
    - rewrite lookup_insert_ne by discriminate. apply lookup_insert_eq.
    - apply lookup_insert_eq. }
  eexists _, (fresh (dom (heap w))).
  split; [reflexivity|]. split.
  { intros c Hc.
    rewrite lookup_insert_ne by (destruct c; try discriminate; contradiction).
    now apply zeros_lookup. }
  split; [apply lookup_insert_eq|].
  split; [apply reset_data_fresh | apply cell_insert_eq].
Qed.

(** The length of a cell after an item of some cell is assigned. *)
Lemma length_cell_assign h l l' (i : nat) (v : T) :
  length (cell (<[l := <[i := v]> (cell h l)]> h) l') = length (cell h l').
Proof.
  destruct (decide (l = l')) as [<-|Hne].
  - rewrite cell_insert_eq. apply length_insert.
  - now rewrite cell_insert_ne.
Qed.

(** X18. The three subcontractor figures are an invariant of the session.
    Starting from a state where the list of [DEFAULT_ACTIVITY_DATA] and
    the list of the session have three figures, the state initialization
    and each of the three callbacks lead to such a state again, and so
    does a new execution of lines 26-38, for the [DEFAULT_ACTIVITY_DATA]
    it builds; and in such a state with activity data, [update_sub_data]
    with one of the indices 0, 1, 2 of the script returns as soon as the
    number input of that index has a value: it raises neither
    [IndexError] nor [TypeError]. *)
Theorem callbacks_keep_three_subcontractors w :
  three_subcontractors DEFAULT_Subcontractors w ->
  (forall w', state_initialization DEFAULT_Subcontractors w = Done w' ->
              three_subcontractors DEFAULT_Subcontractors w') /\
  three_subcontractors DEFAULT_Subcontractors
    (load_sample_data DEFAULT_Subcontractors w) /\
  three_subcontractors DEFAULT_Subcontractors
    (reset_data DEFAULT_Subcontractors w) /\
  (forall index w',
      update_sub_data index w = Done w' ->
      three_subcontractors DEFAULT_Subcontractors w') /\
  (forall index (v : T),
      is_Some (st_activity_data (session w)) ->
      (0 <= index < 3)%Z ->
      st_numbers (session w) !! sub_key index = Some v ->
      exists w', update_sub_data index w = Done w') /\
  (let next := define_DEFAULT_ACTIVITY_DATA w in
   three_subcontractors next.1 next.2).
Proof.
  intros [Hdefault Hsession].
  split.
  { intros w' Hw'.
    destruct (state_initialization_Done w) as (numbers & Hdone & _).
    rewrite Hdone in Hw'. injection Hw' as <-.
    split; [exact Hdefault|]. project.
    intros d' Hd'. apply (inj Some) in Hd'. subst d'.
    destruct (st_activity_data (session w)) as [d|] eqn:Hd.
    - now apply Hsession.
    - exists DEFAULT_Subcontractors. split; [reflexivity | exact Hdefault]. }
  split.
  { split; [exact Hdefault|]. project.
    intros d Hd. apply (inj Some) in Hd. subst d.
    exists DEFAULT_Subcontractors. split; [reflexivity | exact Hdefault]. }
  split.
  { assert (Hne : fresh (dom (heap w)) <> DEFAULT_Subcontractors).
    { intros Heq. apply (reset_data_fresh w). rewrite Heq.
      apply cell_allocated. now rewrite Hdefault. }
    split; project.
    - now rewrite cell_insert_ne.
    - intros d Hd. apply (inj Some) in Hd. subst d.
      exists (fresh (dom (heap w))).
      split; [apply lookup_insert_eq | now rewrite cell_insert_eq]. }
  split.
  { intros index w' Hw'.
    destruct (update_sub_data_inv index w w' Hw')
      as (v & d & l & i & Hv & Hd & Hl & Hi & ->).
    split; project.
    - now rewrite length_cell_assign.
    - intros d' Hd'. destruct (Hsession d' Hd') as (l' & Hl' & Hlen).
      exists l'. split; [exact Hl' | now rewrite length_cell_assign]. }
  split.
  { intros index v [d Hd] Hindex Hv.
    destruct (Hsession d Hd) as (l & Hl & Hlen).
    eexists. apply (update_sub_data_Done index w v d l (Z.to_nat index));
      try assumption.
    rewrite Hlen. now apply position_of_three. }
  cbv zeta. unfold define_DEFAULT_ACTIVITY_DATA. cbn [fst snd].
  split; cbn [heap session].
  - now rewrite cell_insert_eq.
  - intros d Hd. destruct (Hsession d Hd) as (l & Hl & Hlen).
    exists l. split; [exact Hl|].
    rewrite cell_insert_ne; [exact Hlen|].
    apply define_DEFAULT_ACTIVITY_DATA_fresh.
    apply cell_allocated. now rewrite Hlen.
Qed.

(** *** The calculations of the script *)

(** The activity data of the script, with the subcontractor figures read
    in one step. *)
Lemma script_activity_data_subcontractors w :
  script_activity_data w =
  (let s := session w in
   cars ← attribute s "Cars_km";
   trucks ← attribute s "Trucks_km";
   buses ← attribute s "Buses_km";
   forklifts ← attribute s "Forklifts_hr";
   planes ← attribute s "Planes_hr";
   lighting ← attribute s "Lighting_kWh";
   heating ← attribute s "Heating_kWhth";
   cooling ← attribute s "Cooling_kWh";
   computing ← attribute s "Computing_kWh";
   subcontractors ← subcontractors_of w;
   Done (<["Cars_km" := VNum cars]>
         (<["Trucks_km" := VNum trucks]>
         (<["Buses_km" := VNum buses]>
         (<["Forklifts_hr" := VNum forklifts]>
         (<["Planes_hr" := VNum planes]>
         (<["Lighting_kWh" := VNum lighting]>
         (<["Heating_kWhth" := VNum heating]>
         (<["Cooling_kWh" := VNum cooling]>
         (<["Computing_kWh" := VNum computing]>
         (<["Subcontractors_tCO2e" := subcontractors]> ∅))))))))))).
Proof.
  unfold script_activity_data, subcontractors_of. cbv zeta.
  repeat match goal with
         | |- context [attribute ?s ?k] =>
             destruct (attribute s k); simpl; [|reflexivity]
         end.
  destruct (activity_data_of (session w)) as [d|]; simpl; [|reflexivity].
  destruct (entry_at d "Subcontractors_tCO2e"); reflexivity.
Qed.

(** X19. The calculations of the script read the session through the
    numbers (the nine number inputs and the three sliders) and through
    the subcontractor figures only: two states with the same numbers and
    the same figures give the same reports, totals or exception, whatever
    the nine numeric entries of their activity data are. *)
Theorem run_calculations_reads_the_number_inputs w1 w2 :
  st_numbers (session w1) = st_numbers (session w2) ->
  subcontractors_of w1 = subcontractors_of w2 ->
  run_calculations w1 = run_calculations w2.
Proof.
  intros Hnumbers Hsubcontractors.
  unfold run_calculations.
  rewrite !script_activity_data_subcontractors. cbv zeta.
  unfold attribute, number_at.
  now rewrite Hnumbers, Hsubcontractors.
Qed.

(** When the calculations return, the nine number inputs, the list of
    the session and the three sliders are there, and the two reports are
    those of the record they make. *)
Lemma run_calculations_inv w (c : calculations T) :
  run_calculations w = Done c ->
  exists (a : activity T) (ev km lf : T),
    let numbers := st_numbers (session w) in
    numbers !! "Cars_km" = Some (Cars_km a) /\
    numbers !! "Planes_hr" = Some (Planes_hr a) /\
    numbers !! "adj_ev_share" = Some ev /\
    numbers !! "adj_km_red" = Some km /\
    numbers !! "adj_load_factor" = Some lf /\
    get_full_emission_dataframe (current_activity_data a)
      (Some baseline_adjustments) = Ok (df_baseline c) /\
    get_full_emission_dataframe (current_activity_data a)
      (Some (optimized_adjustments ev km lf)) = Ok (df_optimized c) /\
    total_baseline_co2 c = column_sum (df_baseline c) /\
    total_optimized_co2 c = column_sum (df_optimized c).
Proof.
  unfold run_calculations, script_activity_data, attribute, number_at.
  cbv zeta.
  destruct (st_numbers (session w) !! "Cars_km") as [cars|] eqn:Hcars;
    [|discriminate].
  destruct (st_numbers (session w) !! "Trucks_km") as [trucks|];
    [|discriminate].
  destruct (st_numbers (session w) !! "Buses_km") as [buses|];
    [|discriminate].
  destruct (st_numbers (session w) !! "Forklifts_hr") as [forklifts|];
    [|discriminate].
  destruct (st_numbers (session w) !! "Planes_hr") as [planes|] eqn:Hplanes;
    [|discriminate].
  destruct (st_numbers (session w) !! "Lighting_kWh") as [lighting|];
    [|discriminate].
  destruct (st_numbers (session w) !! "Heating_kWhth") as [heating|];
    [|discriminate].
  destruct (st_numbers (session w) !! "Cooling_kWh") as [cooling|];
    [|discriminate].
  destruct (st_numbers (session w) !! "Computing_kWh") as [computing|];
    [|discriminate].
  simpl.
  destruct (activity_data_of (session w)) as [d|]; [|discriminate].
  simpl.
  destruct (entry_at d "Subcontractors_tCO2e") as [[x|l]|]; try discriminate.
  simpl.
    set (a := {| Cars_km := cars; Trucks_km := trucks; Buses_km := buses;
                 Forklifts_hr := forklifts; Planes_hr := planes;
                 Lighting_kWh := lighting; Heating_kWhth := heating;
                 Cooling_kWh := cooling; Computing_kWh := computing;
                 Subcontractors_tCO2e := cell (heap w) l |}).
    match goal with
    | |- context [get_full_emission_dataframe ?A (Some baseline_adjustments)] =>
        change A with (current_activity_data a)
    end.
    destruct (get_full_emission_dataframe (current_activity_data a)
                (Some baseline_adjustments)) as [baseline|] eqn:Hbaseline;
      [|discriminate].
    simpl.
    destruct (st_numbers (session w) !! "adj_ev_share") as [ev|];
      [|discriminate].
    destruct (st_numbers (session w) !! "adj_km_red") as [km|];
      [|discriminate].
    destruct (st_numbers (session w) !! "adj_load_factor") as [lf|];
      [|discriminate].
    simpl.
    destruct (get_full_emission_dataframe (current_activity_data a)
                (Some (optimized_adjustments ev km lf)))
      as [optimized|] eqn:Hoptimized; [|discriminate].
    simpl. intros [= <-]. exists a, ev, km, lf. simpl.
    repeat split; reflexivity || assumption.
Qed.

End SessionFacts.


(** X20. In a run of the script whose Cars distance and flight hours are
    not negative and whose sliders are within [[0, 100]], as the widgets
    keep them, the optimized total is at most the baseline total. *)
Theorem optimized_total_at_most_baseline
    (w : world Q) (c : calculations Q) (cars planes ev km lf : Q) :
  run_calculations w = Done c ->
  st_numbers (session w) !! "Cars_km" = Some cars ->
  st_numbers (session w) !! "Planes_hr" = Some planes ->
  st_numbers (session w) !! "adj_ev_share" = Some ev ->
  st_numbers (session w) !! "adj_km_red" = Some km ->
  st_numbers (session w) !! "adj_load_factor" = Some lf ->
  0 <= cars -> 0 <= planes ->
  0 <= ev <= 100 -> 0 <= km <= 100 -> lf <= 100 ->
  total_optimized_co2 c <= total_baseline_co2 c.
Proof.
  intros Hrun Hcars Hplanes Hev Hkm Hlf Hcars0 Hplanes0 Hev' Hkm' Hlf'.
  destruct (run_calculations_inv w c Hrun)
    as (a & ev0 & km0 & lf0 & Ha_cars & Ha_planes & Ha_ev & Ha_km & Ha_lf
        & Hbaseline & Hoptimized & -> & ->).
  assert (cars = Cars_km a) as -> by congruence.
  assert (planes = Planes_hr a) as -> by congruence.
  assert (ev0 = ev) as -> by congruence.
  assert (km0 = km) as -> by congruence.
  assert (lf0 = lf) as -> by congruence.
  destruct (column_sums_antitone a (Some baseline_adjustments)
              (Some (optimized_adjustments ev km lf)))
    as (df & df' & Hdf & Hdf' & Hle);
    try assumption;
    try (unfold or_empty, baseline_adjustments, optimized_adjustments;
         resolve_get;
         first [ assumption
               | split; [apply Qle_refl | apply Hev']
               | split; [apply Qle_refl | apply Hkm']
               | apply Hev' | apply Hkm' ]).
  rewrite Hbaseline in Hdf. rewrite Hoptimized in Hdf'.
  injection Hdf as <-. injection Hdf' as <-. exact Hle.
Qed.

Lemma sample_data_share_the_default_list_witness :
  st_numbers (session sample_session) !! sub_key 0 = Some 99 /\
  position 0 (length (cell (heap sample_session) 0%nat)) = Some 0%nat /\
  exists w',
    update_sub_data 0 (load_sample_data 0%nat sample_session) = Done w' /\
    cell (heap w') 0%nat = [99; 45; 20] /\
    subcontractors_of (load_sample_data 0%nat w') = Done (VList [99; 45; 20]) /\
    let next := define_DEFAULT_ACTIVITY_DATA w' in
    subcontractors_of (load_sample_data next.1 next.2)
    = Done (VList [120; 45; 20]).
Proof.
  split; [reflexivity|]. split; [reflexivity|].
  destruct (sample_data_share_the_default_list 0%nat 0 sample_session 99
              0%nat eq_refl eq_refl)
    as (w' & Hdone & Hcell & _ & Hsame & _ & _ & Hnext).
  exists w'. split; [exact Hdone|]. split; [exact Hcell|].
  split; [exact Hsame | exact Hnext].
Defined.

Lemma update_sub_data_effect_witness :
  exists w',
    update_sub_data 1 sample_session = Done w' /\
    session w' = session sample_session.
Proof.
  eexists. split; [reflexivity|].
  apply (update_sub_data_effect 1 sample_session). reflexivity.
Defined.

Lemma callbacks_keep_three_subcontractors_witness :
  three_subcontractors 0%nat (first_run (T:=Q) 0%nat) /\
  three_subcontractors 0%nat (reset_data 0%nat (first_run (T:=Q) 0%nat)).
Proof.
  assert (Hfirst : three_subcontractors 0%nat (first_run (T:=Q) 0%nat)).
  { split; [reflexivity|]. intros d Hd. discriminate Hd. }
  split; [exact Hfirst|].
  apply (callbacks_keep_three_subcontractors 0%nat (first_run 0%nat) Hfirst).
Defined.

Lemma run_calculations_reads_the_number_inputs_witness :
  let w2 : world Q :=
    {| heap := heap sample_session;
       session :=
         {| st_activity_data :=
              Some (<["Cars_km" := ENum 0]>
                      (DEFAULT_ACTIVITY_DATA_object 0%nat));
            st_numbers := st_numbers (session sample_session) |} |} in
  subcontractors_of sample_session = subcontractors_of w2 /\
  run_calculations sample_session = run_calculations w2.
Proof.
  intros w2.
  assert (Hsub : subcontractors_of sample_session = subcontractors_of w2)
    by reflexivity.
  split; [exact Hsub|].
  exact (run_calculations_reads_the_number_inputs sample_session w2
           eq_refl Hsub).
Defined.

Lemma optimized_total_at_most_baseline_witness :
  exists c,
    run_calculations sample_session = Done c /\
    total_optimized_co2 c <= total_baseline_co2 c.
Proof.
  eexists. split; [reflexivity|].
  apply (optimized_total_at_most_baseline sample_session _
           250000 400 30 10 80);
    first [ reflexivity | repeat split; vm_compute; discriminate ].
Defined.
